(** * srsRAN network utilities: sockets, receive tasks and the rx multisocket handler

    A shallow embedding of [lib/src/common/network_utils.cc].

    - System calls ([socket], [setsockopt], [bind], [send], [recvfrom],
      [select], [read], [write], ...) are answered by an explicit
      environment: every model function takes the answers of the kernel
      as an argument and records the calls it issues in a trace.
    - C integers are [Z] with the conversions written out ([to_int],
      [to_ssize_t], ...).
    - [std::map<int, task_callback_t>] is a [gmap Z recv_task], an [fd_set]
      is a [gset Z].
    - Behaviour the C++ standard leaves undefined (erasing the [end()]
      iterator of a map) is an explicit outcome of the model. *)

From Stdlib Require Import ZArith Lia.
From stdpp Require Import gmap strings list fin_maps sorting.

Local Open Scope Z_scope.

(** * Part I: the model *)

(** ** Machine integers *)

Definition wrap_unsigned (w x : Z) : Z := x mod 2 ^ w.
Definition wrap_signed (w x : Z) : Z := (x + 2 ^ (w - 1)) mod 2 ^ w - 2 ^ (w - 1).

Definition to_int (x : Z) : Z := wrap_signed 32 x.
Definition to_ssize_t (x : Z) : Z := wrap_signed 64 x.
Definition to_size_t (x : Z) : Z := wrap_unsigned 64 x.
Definition to_uint16 (x : Z) : Z := wrap_unsigned 16 x.
Definition to_uint32 (x : Z) : Z := wrap_unsigned 32 x.

Definition INT_MAX : Z := 2 ^ 31 - 1.

(** ** Traces: the calls a function issues and the lines it logs *)

Inductive log_level := LError | LWarning | LInfo | LDebug | LStdio.

(** A log line keeps the format string of the source and its integer
    arguments. [LStdio] stands for [perror] and [printf]. *)
Record log_entry := Log { log_lvl : log_level; log_fmt : string; log_args : list Z }.

#[global] Instance log_level_eq_dec : EqDecision log_level.
Proof. solve_decision. Defined.
#[global] Instance log_entry_eq_dec : EqDecision log_entry.
Proof. solve_decision. Defined.

(** ** Socket addresses *)

Record sockaddr_in := SockaddrIn {
  sin_family : Z;   (* sa_family_t *)
  sin_port : Z;     (* in_port_t, network byte order *)
  sin_addr : Z      (* in_addr, 32 bits *)
}.

Record sockaddr_in6 := SockaddrIn6 {
  sin6_family : Z;
  sin6_port : Z;
  sin6_flowinfo : Z;
  sin6_addr : list Z;   (* in6_addr, 16 bytes *)
  sin6_scope_id : Z
}.

#[global] Instance sockaddr_in_eq_dec : EqDecision sockaddr_in.
Proof. solve_decision. Defined.
#[global] Instance sockaddr_in6_eq_dec : EqDecision sockaddr_in6.
Proof. solve_decision. Defined.

(** [sockaddr_in x{}] and [x = {}]: every field zero. *)
Definition sockaddr_in_zero : sockaddr_in := SockaddrIn 0 0 0.
Definition sockaddr_in6_zero : sockaddr_in6 := SockaddrIn6 0 0 0 (replicate 16 0) 0.

Definition AF_INET : Z := 2.
Definition AF_INET6 : Z := 10.

(** [htons] on a little-endian host: the two bytes of the 16-bit value
    swapped. The [int] argument is first converted to [uint16_t]. *)
Definition htons (x : Z) : Z :=
  let h := to_uint16 x in
  Z.lor (Z.shiftl (Z.land h 255) 8) (Z.land (Z.shiftr h 8) 255).

Definition ntohs (x : Z) : Z := htons x.

(** ** The system-call trace *)

Record sctp_event_subscribe := SctpEvents {
  sctp_data_io_event : Z;
  sctp_shutdown_event : Z;
  sctp_address_event : Z
}.

Record sctp_rtoinfo := SctpRtoinfo {
  srto_assoc_id : Z;
  srto_initial : Z;
  srto_max : Z;
  srto_min : Z
}.

Record sctp_initmsg := SctpInitmsg {
  sinit_num_ostreams : Z;
  sinit_max_instreams : Z;
  sinit_max_attempts : Z;
  sinit_max_init_timeo : Z
}.

Inductive syscall :=
| Sys_socket
| Sys_setsockopt_events (fd : Z) (evnts : sctp_event_subscribe)
| Sys_getsockopt_rtoinfo (fd : Z)
| Sys_setsockopt_rtoinfo (fd : Z) (opts : sctp_rtoinfo)
| Sys_getsockopt_initmsg (fd : Z)
| Sys_setsockopt_initmsg (fd : Z) (opts : sctp_initmsg)
| Sys_bind (fd : Z) (addr : sockaddr_in)
| Sys_connect (fd : Z) (addr : sockaddr_in)
| Sys_listen (fd : Z) (backlog : Z)
| Sys_send (fd : Z) (offset : Z) (len : Z)
| Sys_close (fd : Z).

Inductive event :=
| Call (c : syscall)
| Logged (l : log_entry).

#[global] Instance sctp_event_subscribe_eq_dec : EqDecision sctp_event_subscribe.
Proof. solve_decision. Defined.
#[global] Instance sctp_rtoinfo_eq_dec : EqDecision sctp_rtoinfo.
Proof. solve_decision. Defined.
#[global] Instance sctp_initmsg_eq_dec : EqDecision sctp_initmsg.
Proof. solve_decision. Defined.
#[global] Instance syscall_eq_dec : EqDecision syscall.
Proof. solve_decision. Defined.
#[global] Instance event_eq_dec : EqDecision event.
Proof. solve_decision. Defined.

(** A computation that appends to the trace. *)
Definition Sys (A : Type) : Type := list event → A * list event.

#[global] Instance sys_ret : MRet Sys := λ A a t, (a, t).
#[global] Instance sys_bind : MBind Sys :=
  λ A B k m t, let '(a, t') := m t in k a t'.
Definition emit (e : event) : Sys unit := λ t, (tt, t ++ [e]).
Definition call (c : syscall) : Sys unit := emit (Call c).
Definition logf (lvl : log_level) (fmt : string) (args : list Z) : Sys unit :=
  emit (Logged (Log lvl fmt args)).
Definition run_sys {A} (m : Sys A) : A * list event := m [].

(** The calls issued, without the log lines. *)
Definition calls_of (t : list event) : list syscall :=
  omap (λ e, match e with Call c => Some c | Logged _ => None end) t.

(** ** The environment: what libc and the kernel answer *)

(** The three enumerations of [network_utils.h], by the names the source
    uses. *)
Inductive addr_family := ipv4 | ipv6.
Inductive socket_type := st_none | datagram | stream | seqpacket.
Inductive protocol_type := NONE | SCTP | TCP | UDP.

#[global] Instance protocol_type_eq_dec : EqDecision protocol_type.
Proof. solve_decision. Defined.

(** Each field answers one call of the source. A call that takes a
    pointer to a structure gets the structure as it is before the call and
    answers with the return value and the structure as it is afterwards.
    [stack_rtoinfo] and [stack_initmsg] are the indeterminate contents of
    the two locals that [open_socket] declares without an initialiser.
    [send fd off len] answers [::send(fd, buf + off, len, 0)]: within one
    [tcp_send] every call has its own offset. *)
Record env := Env {
  inet_pton4 : string → Z → Z * Z;
  inet_pton6 : string → list Z → Z * list Z;
  socket : addr_family → socket_type → protocol_type → Z;
  setsockopt_events : Z → sctp_event_subscribe → Z;
  getsockopt_rtoinfo : Z → sctp_rtoinfo → Z * sctp_rtoinfo;
  setsockopt_rtoinfo : Z → sctp_rtoinfo → Z;
  getsockopt_initmsg : Z → sctp_initmsg → Z * sctp_initmsg;
  setsockopt_initmsg : Z → sctp_initmsg → Z;
  stack_rtoinfo : sctp_rtoinfo;
  stack_initmsg : sctp_initmsg;
  bind : Z → sockaddr_in → Z;
  connect : Z → sockaddr_in → Z;
  listen : Z → Z → Z;
  send : Z → Z → Z → Z
}.

(** ** Address and socket utilities *)

Module net_utils.

(** [bool set_sockaddr(sockaddr_in* addr, const char* ip_str, int port)].
    Returns the result and [*addr] as the call leaves it. *)
Definition set_sockaddr (k : env) (addr : sockaddr_in) (ip_str : string) (port : Z)
  : Sys (bool * sockaddr_in) :=
  let addr := SockaddrIn AF_INET (sin_port addr) (sin_addr addr) in
  let '(r, a) := inet_pton4 k ip_str (sin_addr addr) in
  let addr := SockaddrIn (sin_family addr) (sin_port addr) a in
  if decide (r ≠ 1) then
    logf LStdio "inet_pton" [];;
    mret (false, addr)
  else
    let addr := SockaddrIn (sin_family addr) (htons port) (sin_addr addr) in
    mret (true, addr).

(** [bool set_sockaddr(sockaddr_in6* addr, const char* ip_str, int port)]. *)
Definition set_sockaddr6 (k : env) (addr : sockaddr_in6) (ip_str : string) (port : Z)
  : Sys (bool * sockaddr_in6) :=
  let addr := SockaddrIn6 AF_INET6 (sin6_port addr) (sin6_flowinfo addr)
                          (sin6_addr addr) (sin6_scope_id addr) in
  let '(r, a) := inet_pton6 k ip_str (sin6_addr addr) in
  let addr := SockaddrIn6 (sin6_family addr) (sin6_port addr) (sin6_flowinfo addr)
                          a (sin6_scope_id addr) in
  if decide (r ≠ 1) then
    logf LStdio "inet_pton for ipv6" [];;
    mret (false, addr)
  else
    let addr := SockaddrIn6 (sin6_family addr) (htons port) (sin6_flowinfo addr)
                            (sin6_addr addr) (sin6_scope_id addr) in
    mret (true, addr).

Definition get_port (addr : sockaddr_in) : Z := ntohs (sin_port addr).

(** [int open_socket(addr_family, socket_type, protocol_type)]. *)
Definition open_socket (k : env) (ip_type : addr_family) (socket_type : socket_type)
    (protocol : protocol_type) : Sys Z :=
  call Sys_socket;;
  let fd := socket k ip_type socket_type protocol in
  if decide (fd = -1) then
    logf LError "Failed to open %s socket." [];;
    logf LStdio "Could not create socket\n" [];;
    mret (-1)
  else if decide (protocol = SCTP) then
    let evnts := SctpEvents 1 1 1 in
    call (Sys_setsockopt_events fd evnts);;
    (if decide (setsockopt_events k fd evnts ≠ 0) then
       logf LError "Failed to subscribe to SCTP_SHUTDOWN event: %s" [];;
       logf LStdio "Could not regiester socket to SCTP events\n" []
     else mret tt);;
    let rto_opts := stack_rtoinfo k in
    let rto_opts := SctpRtoinfo 0 (srto_initial rto_opts) (srto_max rto_opts)
                                (srto_min rto_opts) in
    call (Sys_getsockopt_rtoinfo fd);;
    let '(r, rto_opts) := getsockopt_rtoinfo k fd rto_opts in
    if decide (r < 0) then
      logf LStdio "Error getting RTO_INFO sockopts\n" [];;
      mret (-1)
    else
      let rto_opts := SctpRtoinfo (srto_assoc_id rto_opts) (srto_initial rto_opts)
                                  6000 (srto_min rto_opts) in
      logf LDebug
        "Setting RTO_INFO options on SCTP socket. Association %d, Initial RTO %d, Minimum RTO %d, Maximum RTO %d"
        [srto_assoc_id rto_opts; srto_initial rto_opts; srto_min rto_opts; srto_max rto_opts];;
      call (Sys_setsockopt_rtoinfo fd rto_opts);;
      if decide (setsockopt_rtoinfo k fd rto_opts < 0) then
        logf LStdio "Error setting RTO_INFO sockopts\n" [];;
        mret (-1)
      else
        let init_opts := stack_initmsg k in
        call (Sys_getsockopt_initmsg fd);;
        let '(r, init_opts) := getsockopt_initmsg k fd init_opts in
        (if decide (r < 0) then logf LStdio "Error getting sockopts\n" [] else mret tt);;
        let init_opts := SctpInitmsg (sinit_num_ostreams init_opts)
                                     (sinit_max_instreams init_opts) 3 5000 in
        logf LDebug
          "Setting SCTP_INITMSG options on SCTP socket. Max attempts %d, Max init attempts timeout %d"
          [sinit_max_attempts init_opts; sinit_max_init_timeo init_opts];;
        call (Sys_setsockopt_initmsg fd init_opts);;
        if decide (setsockopt_initmsg k fd init_opts < 0) then
          logf LStdio "Error setting SCTP_INITMSG sockopts\n" [];;
          mret (-1)
        else mret fd
  else mret fd.

(** [bool bind_addr(int fd, const sockaddr_in& addr_in)]. *)
Definition bind_addr (k : env) (fd : Z) (addr_in : sockaddr_in) : Sys bool :=
  if decide (fd < 0) then
    logf LError "Trying to bind to a closed socket" [];;
    mret false
  else
    call (Sys_bind fd addr_in);;
    if decide (bind k fd addr_in ≠ 0) then
      logf LError "Failed to bind on address %s: %s errno %d" [];;
      logf LStdio "bind()" [];;
      mret false
    else mret true.

(** [bool bind_addr(int fd, const char* bind_addr_str, int port, sockaddr_in* addr_result)].
    [addr_result] is [None] for a null pointer and [Some a] for a pointer
    to an address holding [a]; the second component of the result is what
    it points to afterwards. *)
Definition bind_addr_text (k : env) (fd : Z) (bind_addr_str : string) (port : Z)
    (addr_result : option sockaddr_in) : Sys (bool * option sockaddr_in) :=
  '(ok, addr_tmp) ← set_sockaddr k sockaddr_in_zero bind_addr_str port;
  if negb ok then
    logf LError "Failed to convert IP address (%s) to sockaddr_in struct" [];;
    mret (false, addr_result)
  else
    _ ← bind_addr k fd addr_tmp;
    let addr_result := match addr_result with
                       | Some _ => Some addr_tmp
                       | None => None
                       end in
    mret (true, addr_result).

(** [bool connect_to(int fd, const char* dest_addr_str, int dest_port, sockaddr_in* dest_sockaddr)]. *)
Definition connect_to (k : env) (fd : Z) (dest_addr_str : string) (dest_port : Z)
    (dest_sockaddr : option sockaddr_in) : Sys (bool * option sockaddr_in) :=
  if decide (fd < 0) then
    logf LError "tried to connect to remote address with an invalid socket." [];;
    mret (false, dest_sockaddr)
  else
    '(ok, sockaddr_tmp) ← set_sockaddr k sockaddr_in_zero dest_addr_str dest_port;
    if negb ok then
      logf LError "Error converting IP address (%s) to sockaddr_in structure" [];;
      mret (false, dest_sockaddr)
    else
      let dest_sockaddr := match dest_sockaddr with
                           | Some _ => Some sockaddr_tmp
                           | None => None
                           end in
      call (Sys_connect fd sockaddr_tmp);;
      if decide (connect k fd sockaddr_tmp = -1) then
        logf LInfo "Failed to establish socket connection to %s" [];;
        logf LStdio "connect()" [];;
        mret (false, dest_sockaddr)
      else mret (true, dest_sockaddr).

(** The [while] loop of [tcp_send]. [ptr] is the offset of the C pointer
    into [buf]. The result is [inl i] when the loop is left by
    [return i], [inr r] when it ends with [nbytes_remaining = r], and
    [None] when [fuel] iterations were not enough. *)
Fixpoint tcp_send_loop (k : env) (remotefd : Z) (fuel : nat) (ptr nbytes_remaining : Z)
  : Sys (option (Z + Z)) :=
  match fuel with
  | O => mret None
  | S fuel =>
    if decide (nbytes_remaining > 0) then
      call (Sys_send remotefd ptr nbytes_remaining);;
      let i := to_ssize_t (send k remotefd ptr nbytes_remaining) in
      if decide (i < 1) then
        logf LError "Failed to send data to TCP socket" [];;
        logf LStdio "Error calling send()\n" [];;
        mret (Some (inl i))
      else
        tcp_send_loop k remotefd fuel (ptr + i) (to_ssize_t (nbytes_remaining - i))
    else mret (Some (inr nbytes_remaining))
  end.

(** [int tcp_send(int remotefd, const void* buf, size_t nbytes)]. *)
Definition tcp_send (k : env) (remotefd : Z) (nbytes : Z) : Sys (option Z) :=
  let nbytes_remaining := to_ssize_t nbytes in
  r ← tcp_send_loop k remotefd (S (Z.to_nat nbytes_remaining)) 0 nbytes_remaining;
  mret (match r with
        | None => None
        | Some (inl i) => Some (to_int i)
        | Some (inr nbytes_remaining) => Some (to_int (to_size_t (nbytes - nbytes_remaining)))
        end).

(** The bytes a trace has put on the wire: what the [send] calls in it
    transmitted. *)
Definition bytes_sent (k : env) (t : list event) : Z :=
  foldr (λ e acc,
           match e with
           | Call (Sys_send fd off len) => Z.max 0 (to_ssize_t (send k fd off len)) + acc
           | _ => acc
           end) 0 t.

End net_utils.

(** ** Socket handle *)

Module socket_handler.

Record socket_handler_t := SocketHandler { sockfd : Z; addr : sockaddr_in }.

(** Modelled from the spec: the class declaration is in a header outside
    the sources at hand; a handle that owns nothing holds the invalid
    sentinel -1 and a zero address. *)
Definition empty : socket_handler_t := SocketHandler (-1) sockaddr_in_zero.

(** [socket_handler_t(socket_handler_t&& other)]: the new object and
    [other] as the constructor leaves it. *)
Definition move_ctor (other : socket_handler_t) : socket_handler_t * socket_handler_t :=
  let this_sockfd := sockfd other in
  let this_addr := addr other in
  let other := SocketHandler 0 (addr other) in
  let other := SocketHandler (sockfd other) sockaddr_in_zero in
  (SocketHandler this_sockfd this_addr, other).

(** Objects live in a store, so that [this == &other] can be told. *)
Definition store := gmap nat socket_handler_t.

(** [operator=(socket_handler_t&& other)] on the objects at [this] and
    [other]. [None]: a reference to no object. *)
Definition move_assign (this other : nat) (h : store) : option store :=
  if decide (this = other) then Some h
  else
    _ ← h !! this;
    o ← h !! other;
    let t := SocketHandler (sockfd o) (addr o) in
    let o := SocketHandler 0 sockaddr_in_zero in
    Some (<[other := o]> (<[this := t]> h)).

(** [void close()]. *)
Definition close (this : socket_handler_t) : Sys socket_handler_t :=
  if decide (0 ≤ sockfd this) then
    call (Sys_close (sockfd this));;
    mret (SocketHandler (-1) (addr this))
  else mret this.

(** [void reset()]. *)
Definition reset (this : socket_handler_t) : Sys socket_handler_t :=
  this ← close this;
  mret (SocketHandler (sockfd this) sockaddr_in_zero).

(** [~socket_handler_t()]. *)
Definition destroy (this : socket_handler_t) : Sys unit :=
  _ ← reset this; mret tt.

(** [bool bind_addr(const char* bind_addr_str, int port)]. *)
Definition bind_addr (k : env) (this : socket_handler_t) (bind_addr_str : string) (port : Z)
  : Sys (bool * socket_handler_t) :=
  '(ok, a) ← net_utils.bind_addr_text k (sockfd this) bind_addr_str port (Some (addr this));
  mret (ok, SocketHandler (sockfd this) (default (addr this) a)).

(** [bool open_socket(addr_family, socket_type, protocol_type)]. *)
Definition open_socket (k : env) (this : socket_handler_t) (ip_type : addr_family)
    (socket_type : socket_type) (protocol : protocol_type) : Sys (bool * socket_handler_t) :=
  if decide (0 ≤ sockfd this) then
    logf LError "Socket is already open." [];;
    mret (false, this)
  else
    fd ← net_utils.open_socket k ip_type socket_type protocol;
    mret (bool_decide (0 ≤ fd), SocketHandler fd (addr this)).

(** [bool sctp_init_socket(socket_handler_t*, socket_type, const char*, int)]. *)
Definition sctp_init_socket (k : env) (socket : socket_handler_t) (socktype : socket_type)
    (bind_addr_str : string) (port : Z) : Sys (bool * socket_handler_t) :=
  '(ok, socket) ← open_socket k socket ipv4 socktype SCTP;
  if negb ok then mret (false, socket)
  else
    '(ok, socket) ← bind_addr k socket bind_addr_str port;
    if negb ok then
      socket ← reset socket;
      mret (false, socket)
    else mret (true, socket).

(** [bool sctp_init_server(socket_handler_t*, socket_type, const char*, int)];
    [SOMAXCONN] is the backlog. *)
Definition sctp_init_server (k : env) (SOMAXCONN : Z) (socket : socket_handler_t)
    (socktype : socket_type) (bind_addr_str : string) (port : Z)
  : Sys (bool * socket_handler_t) :=
  '(ok, socket) ← sctp_init_socket k socket socktype bind_addr_str port;
  if negb ok then mret (false, socket)
  else
    call (Sys_listen (sockfd socket) SOMAXCONN);;
    if decide (listen k (sockfd socket) SOMAXCONN ≠ 0) then
      logf LError "Failed to listen to incoming SCTP connections" [];;
      mret (false, socket)
    else mret (true, socket).

(** [bool tcp_make_server(socket_handler_t*, const char*, int, int)]. *)
Definition tcp_make_server (k : env) (socket : socket_handler_t) (bind_addr_str : string)
    (port : Z) (nof_connections : Z) : Sys (bool * socket_handler_t) :=
  '(ok, socket) ← open_socket k socket ipv4 stream TCP;
  if negb ok then mret (false, socket)
  else
    '(ok, socket) ← bind_addr k socket bind_addr_str port;
    if negb ok then
      socket ← reset socket;
      mret (false, socket)
    else
      call (Sys_listen (sockfd socket) nof_connections);;
      if decide (listen k (sockfd socket) nof_connections ≠ 0) then
        logf LError "Failed to listen to incoming TCP connections" [];;
        mret (false, socket)
      else mret (true, socket).

End socket_handler.

(** ** Receive tasks *)

Module rx_tasks.

(** Modelled from the spec: the buffer type and its pool are declared
    outside the sources at hand. A buffer is a fresh protocol data unit
    from a pool that can be exhausted; [msg] holds the bytes stored from
    [msg] on, [N_bytes] is their count as the task sets it, and
    [get_tailroom()] is the room left, from the sizes the buffer comes
    with. *)
Record byte_buffer_t := ByteBuffer {
  buffer_size : Z;   (* sizeof(buffer) *)
  headroom : Z;      (* msg - buffer *)
  msg : list Z;
  N_bytes : Z
}.

Definition get_tailroom (b : byte_buffer_t) : Z :=
  to_uint32 (buffer_size b - headroom b - N_bytes b).

Record sctp_sndrcvinfo := SctpSndrcvinfo {
  sinfo_stream : Z;
  sinfo_ssn : Z;
  sinfo_ppid : Z;
  sinfo_assoc_id : Z
}.

Definition sctp_sndrcvinfo_zero : sctp_sndrcvinfo := SctpSndrcvinfo 0 0 0 0.

Definition EAGAIN : Z := 11.

(** What one [recvfrom] or [sctp_recvmsg] answers: the return value,
    [errno], and what the call has stored through its pointers. *)
Record rx_answer := RxAnswer {
  n_recv : Z;
  rx_errno : Z;
  rx_data : list Z;
  rx_from : sockaddr_in;
  rx_sri : sctp_sndrcvinfo;
  rx_flags : Z
}.

Definition would_block : rx_answer :=
  RxAnswer (-1) EAGAIN [] sockaddr_in_zero sctp_sndrcvinfo_zero 0.

(** An invocation of a caller-supplied callback; [func] names the callback. *)
Inductive delivery :=
| recvfrom_callback (func : nat) (pdu : byte_buffer_t) (from : sockaddr_in)
| sctp_recv_callback (func : nat) (pdu : byte_buffer_t) (from : sockaddr_in)
                     (sri : sctp_sndrcvinfo) (flags : Z).

(** What the tasks act on: the answers of the coming
    [make_byte_buffer()] calls ([None] is [nullptr]; an exhausted list
    answers [nullptr]), per descriptor the answers of the coming receive
    calls (an exhausted list answers would-block), the callbacks invoked
    so far and the lines logged. *)
Record world := World {
  pool : list (option byte_buffer_t);
  rx : gmap Z (list rx_answer);
  delivered : list delivery;
  task_log : list log_entry
}.

Definition make_byte_buffer (w : world) : option byte_buffer_t * world :=
  match pool w with
  | [] => (None, w)
  | b :: p => (b, World p (rx w) (delivered w) (task_log w))
  end.

(** What a kernel can answer to a receive call that offers [len] bytes. *)
Definition rx_answer_ok (len : Z) (a : rx_answer) : Prop :=
  n_recv a = -1 ∨ (0 ≤ n_recv a ≤ len ∧ Z.of_nat (length (rx_data a)) = n_recv a).

Definition receive (fd : Z) (w : world) : rx_answer * world :=
  match rx w !! fd with
  | Some (a :: q) => (a, World (pool w) (<[fd := q]> (rx w)) (delivered w) (task_log w))
  | _ => (would_block, w)
  end.

Definition wlog (lvl : log_level) (fmt : string) (w : world) : world :=
  World (pool w) (rx w) (delivered w) (task_log w ++ [Log lvl fmt []]).

Definition deliver (d : delivery) (w : world) : world :=
  World (pool w) (rx w) (delivered w ++ [d]) (task_log w).

(** [bool recvfrom_pdu_task::operator()(int fd)]. *)
Definition recvfrom_pdu_task_call (func : nat) (fd : Z) (w : world) : bool * world :=
  let '(pdu, w) := make_byte_buffer w in
  match pdu with
  | None => (true, wlog LError "Unable to allocate byte buffer" w)
  | Some pdu =>
    let '(a, w) := receive fd w in
    if decide (n_recv a = -1 ∧ rx_errno a ≠ EAGAIN) then
      (true, wlog LError "Error reading from socket: %s" w)
    else if decide (n_recv a = -1 ∧ rx_errno a = EAGAIN) then
      (true, wlog LDebug "Socket timeout reached" w)
    else
      let pdu := ByteBuffer (buffer_size pdu) (headroom pdu) (rx_data a)
                            (to_uint32 (n_recv a)) in
      (true, deliver (recvfrom_callback func pdu (rx_from a)) w)
  end.

(** [bool sctp_recvmsg_pdu_task::operator()(int fd)]. *)
Definition sctp_recvmsg_pdu_task_call (func : nat) (fd : Z) (w : world) : bool * world :=
  let '(pdu, w) := make_byte_buffer w in
  match pdu with
  | None => (true, wlog LError "Unable to allocate byte buffer" w)
  | Some pdu =>
    let '(a, w) := receive fd w in
    if decide (n_recv a = -1 ∧ rx_errno a ≠ EAGAIN) then
      (true, wlog LError "Error reading from SCTP socket: %s" w)
    else if decide (n_recv a = -1 ∧ rx_errno a = EAGAIN) then
      (true, wlog LDebug "Socket timeout reached" w)
    else
      let ret := true in
      let pdu := ByteBuffer (buffer_size pdu) (headroom pdu) (rx_data a)
                            (to_uint32 (n_recv a)) in
      (ret, deliver (sctp_recv_callback func pdu (rx_from a) (rx_sri a) (rx_flags a)) w)
  end.

(** [rx_multisocket_handler::recv_task]: the two tasks of this file, and
    any other implementation of the interface. *)
Inductive recv_task :=
| recvfrom_pdu_task (func : nat)
| sctp_recvmsg_pdu_task (func : nat)
| other_task (run : Z → world → bool * world).

Definition invoke (t : recv_task) (fd : Z) (w : world) : bool * world :=
  match t with
  | recvfrom_pdu_task func => recvfrom_pdu_task_call func fd w
  | sctp_recvmsg_pdu_task func => sctp_recvmsg_pdu_task_call func fd w
  | other_task run => run fd w
  end.

End rx_tasks.

(** ** The rx multisocket handler *)

Module rx_multisocket_handler.
Import rx_tasks.

(** Modelled from the spec: [ctrl_cmd_t] is declared in a header outside
    the sources at hand; it is a fixed-size record of a command and a
    descriptor. The three commands are the ones [run_thread] switches on
    ([NEW_FD] and [RM_FD] are the source's names for the spec's ADD_FD and
    REMOVE_FD), [cmd_other] is any other value of the underlying integer. *)
Inductive cmd_id_t := EXIT | NEW_FD | RM_FD | cmd_other (v : Z).

Record ctrl_cmd_t := CtrlCmd { cmd : cmd_id_t; new_fd : Z }.

(** Modelled from the spec: [sizeof(ctrl_cmd_t)], the size of the
    fixed-size record, for an enumeration over [int] and an [int]. *)
Definition sizeof_ctrl_cmd_t : Z := 8.

(** Behaviour that C++ leaves undefined is a result of its own. *)
Inductive outcome (A : Type) :=
| Ok (a : A)
| Undefined (what : string).
Arguments Ok {A} a.
Arguments Undefined {A} what.

(** The members of the handler, and [total_fd_set] and [max_fd], the
    locals of [run_thread] that live as long as the thread. *)
Record state := State {
  pipefd0 : Z;
  pipefd1 : Z;
  active_sockets : gmap Z recv_task;
  running : bool;
  total_fd_set : gset Z;
  max_fd : Z;
  logger : list log_entry;
  wld : world
}.

Definition rxSock (lvl : log_level) (fmt : string) (args : list Z) (s : state) : state :=
  State (pipefd0 s) (pipefd1 s) (active_sockets s) (running s) (total_fd_set s) (max_fd s)
        (logger s ++ [Log lvl fmt args]) (wld s).
Definition set_active_sockets (m : gmap Z recv_task) (s : state) : state :=
  State (pipefd0 s) (pipefd1 s) m (running s) (total_fd_set s) (max_fd s) (logger s) (wld s).
Definition set_running (b : bool) (s : state) : state :=
  State (pipefd0 s) (pipefd1 s) (active_sockets s) b (total_fd_set s) (max_fd s) (logger s) (wld s).
Definition set_total_fd_set (t : gset Z) (s : state) : state :=
  State (pipefd0 s) (pipefd1 s) (active_sockets s) (running s) t (max_fd s) (logger s) (wld s).
Definition set_max_fd (x : Z) (s : state) : state :=
  State (pipefd0 s) (pipefd1 s) (active_sockets s) (running s) (total_fd_set s) x (logger s) (wld s).
Definition set_wld (w : world) (s : state) : state :=
  State (pipefd0 s) (pipefd1 s) (active_sockets s) (running s) (total_fd_set s) (max_fd s)
        (logger s) w.

(** *** [std::map] with its iterators

    The keys in ascending order; an iterator is the key it points to, or
    [None] for [end()]. *)
Definition keys (m : gmap Z recv_task) : list Z := merge_sort Z.le (elements (dom m)).

Definition map_find (m : gmap Z recv_task) (fd : Z) : option Z :=
  match m !! fd with
  | Some _ => Some fd
  | None => None
  end.

Definition map_next (m : gmap Z recv_task) (k : Z) : option Z :=
  head (filter (λ x, k < x) (keys m)).

(** [it = m.erase(it)]: erasing [end()] is undefined. *)
Definition map_erase (m : gmap Z recv_task) (it : option Z)
  : outcome (gmap Z recv_task * option Z) :=
  match it with
  | None => Undefined "std::map::erase(end())"
  | Some k => Ok (delete k m, map_next m k)
  end.

(** [active_sockets.rbegin()->first]. *)
Definition map_rbegin (m : gmap Z recv_task) : option Z := last (keys m).

(** *** The registration interface

    [wr] is what [write(pipefd[1], &msg, sizeof(msg))] answers. The last
    component of the result is the message handed to [write], if the call
    got that far. *)

(** [bool add_socket_handler(int fd, task_callback_t handler)]. *)
Definition add_socket_handler (wr : Z) (fd : Z) (handler : recv_task) (s : state)
  : bool * state * option ctrl_cmd_t :=
  if decide (fd < 0) then
    (false, rxSock LError "Provided SCTP socket must be already open" [] s, None)
  else if decide (is_Some (active_sockets s !! fd)) then
    (false, rxSock LError "Tried to register fd=%d, but this fd already exists" [fd] s, None)
  else
    let s := set_active_sockets (<[fd := handler]> (active_sockets s)) s in
    let msg := CtrlCmd NEW_FD fd in
    if decide (wr ≠ sizeof_ctrl_cmd_t) then
      (false, rxSock LError "while writing to control pipe" [] s, Some msg)
    else
      (true, rxSock LDebug "socket fd=%d has been registered." [fd] s, Some msg).

(** [bool add_socket_pdu_handler(int fd, recvfrom_callback_t pdu_task)]. *)
Definition add_socket_pdu_handler (wr : Z) (fd : Z) (pdu_task : nat) (s : state) :=
  add_socket_handler wr fd (recvfrom_pdu_task pdu_task) s.

(** [bool add_socket_sctp_pdu_handler(int fd, sctp_recv_callback_t pdu_task)]. *)
Definition add_socket_sctp_pdu_handler (wr : Z) (fd : Z) (pdu_task : nat) (s : state) :=
  add_socket_handler wr fd (sctp_recvmsg_pdu_task pdu_task) s.

(** [bool remove_socket(int fd)]. *)
Definition remove_socket (wr : Z) (fd : Z) (s : state) : bool * state * option ctrl_cmd_t :=
  match map_find (active_sockets s) fd with
  | None =>
    (false, rxSock LError "The socket fd=%d to be removed does not exist" [fd] s, None)
  | Some _ =>
    let msg := CtrlCmd RM_FD fd in
    if decide (wr ≠ sizeof_ctrl_cmd_t) then
      (false, rxSock LError "while writing to control pipe" [] s, Some msg)
    else (true, s, Some msg)
  end.

(** *** The thread *)

(** [remove_socket_unprotected(int fd, fd_set* total_fd_set, int* max_fd)];
    the iterator it returns comes with the state. *)
Definition remove_socket_unprotected (fd : Z) (s : state) : outcome (state * option Z) :=
  if decide (fd < 0) then
    Ok (rxSock LError "fd to be removed is not valid" [] s, None)
  else
    let it := map_find (active_sockets s) fd in
    match map_erase (active_sockets s) it with
    | Undefined what => Undefined what
    | Ok (m, it) =>
      let s := set_active_sockets m s in
      let s := set_total_fd_set (total_fd_set s ∖ {[fd]}) s in
      let s := set_max_fd (match map_rbegin (active_sockets s) with
                           | None => pipefd0 s
                           | Some k => Z.max (pipefd0 s) k
                           end) s in
      Ok (rxSock LDebug "Socket fd=%d has been successfully removed" [fd] s, it)
    end.

(** The state of [run_thread] when it reaches its loop. *)
Definition run_thread_init (pipefd0 pipefd1 : Z) (m : gmap Z recv_task) (w : world) : state :=
  State pipefd0 pipefd1 m true {[pipefd0]} (Z.max pipefd0 0) [] w.

(** The [for] loop over [active_sockets]: [its] are the positions the
    iterator has still to visit. *)
Fixpoint handler_loop (read_fd_set : gset Z) (its : list Z) (s : state) : outcome state :=
  match its with
  | [] => Ok s
  | fd :: its =>
    match active_sockets s !! fd with
    | None => handler_loop read_fd_set its s
    | Some callback =>
      if decide (fd ∉ read_fd_set) then handler_loop read_fd_set its s
      else
        let '(socket_valid, w) := invoke callback fd (wld s) in
        let s := set_wld w s in
        if negb socket_valid then
          let s := rxSock LInfo "The socket fd=%d has been closed by peer" [fd] s in
          match remove_socket_unprotected fd s with
          | Undefined what => Undefined what
          | Ok (s, None) => Ok s
          | Ok (s, Some _) => handler_loop read_fd_set its s
          end
        else handler_loop read_fd_set its s
    end
  end.

(** The part of the loop body after the lock is taken, for a control
    message: [nrd] is what [read] answers and [msg] the record as it is
    after the call. *)
Definition handle_ctrl (nrd : Z) (msg : ctrl_cmd_t) (s : state) : outcome state :=
  if decide (nrd ≤ 0) then
    Ok (rxSock LError "Unable to read control message." [] s)
  else
    match cmd msg with
    | EXIT => Ok (set_running false s)
    | NEW_FD =>
      if decide (0 ≤ new_fd msg) then
        let s := set_total_fd_set ({[new_fd msg]} ∪ total_fd_set s) s in
        Ok (set_max_fd (Z.max (max_fd s) (new_fd msg)) s)
      else Ok (rxSock LError "added fd is not valid" [] s)
    | RM_FD =>
      match remove_socket_unprotected (new_fd msg) s with
      | Undefined what => Undefined what
      | Ok (s, _) =>
        Ok (rxSock LDebug "Socket fd=%d has been successfully removed" [new_fd msg] s)
      end
    | cmd_other v => Ok (rxSock LError "ctrl message command %d is not valid" [v] s)
    end.

(** One turn of the [while (running)] loop. [n] and [read_fd_set] are
    what [select] answers, [nrd] and [msg] what [read] answers should
    the turn get to it. *)
Definition run_thread_iteration (n : Z) (read_fd_set : gset Z) (nrd : Z) (msg : ctrl_cmd_t)
    (s : state) : outcome state :=
  if decide (n = -1) then
    Ok (rxSock LError "Error from select(%d,...). Number of rx sockets: %d"
               [max_fd s + 1; to_int (Z.of_nat (size (active_sockets s))) + 1] s)
  else if decide (n = 0) then
    Ok (rxSock LDebug "No data from select." [] s)
  else
    match handler_loop read_fd_set (keys (active_sockets s)) s with
    | Undefined what => Undefined what
    | Ok s =>
      if decide (pipefd0 s ∈ read_fd_set) then handle_ctrl nrd msg s
      else Ok s
    end.

(** *** The handler with its pipe and its callers

    The control pipe holds the records written and not yet read. A caller
    registers or removes a descriptor (its [write] succeeds), or the
    thread takes one turn: [ready] are the descriptors with data to read,
    the pipe is readable when it holds a record, and [select] answers
    with the watched descriptors among these. With nothing to report the
    thread stays in [select]. *)
Record system := System { st : state; pipe : list ctrl_cmd_t }.

Inductive action :=
| do_add (fd : Z) (handler : recv_task)
| do_remove (fd : Z)
| do_turn (ready : gset Z).

Definition select_answer (ready : gset Z) (y : system) : gset Z :=
  (filter (λ fd, fd ∈ ready) (total_fd_set (st y)) ∖ {[pipefd0 (st y)]})
  ∪ (if decide (pipe y = []) then ∅ else {[pipefd0 (st y)]} ∩ total_fd_set (st y)).

Definition step (a : action) (y : system) : outcome system :=
  match a with
  | do_add fd handler =>
    let '(_, s, msg) := add_socket_handler sizeof_ctrl_cmd_t fd handler (st y) in
    Ok (System s (pipe y ++ option_list msg))
  | do_remove fd =>
    let '(_, s, msg) := remove_socket sizeof_ctrl_cmd_t fd (st y) in
    Ok (System s (pipe y ++ option_list msg))
  | do_turn ready =>
    let read_fd_set := select_answer ready y in
    if decide (read_fd_set = ∅) then Ok y
    else
      let n := Z.of_nat (size read_fd_set) in
      match pipe y with
      | [] =>
        match run_thread_iteration n read_fd_set 0 (CtrlCmd EXIT (-1)) (st y) with
        | Undefined what => Undefined what
        | Ok s => Ok (System s [])
        end
      | msg :: rest =>
        match run_thread_iteration n read_fd_set sizeof_ctrl_cmd_t msg (st y) with
        | Undefined what => Undefined what
        | Ok s => Ok (System s (if decide (pipefd0 s ∈ read_fd_set) then rest else pipe y))
        end
      end
  end.

Fixpoint run (l : list action) (y : system) : outcome system :=
  match l with
  | [] => Ok y
  | a :: l =>
    match step a y with
    | Undefined what => Undefined what
    | Ok y => run l y
    end
  end.

(** A handler as its constructor leaves it, with the thread at its loop. *)
Definition start (pipefd0 pipefd1 : Z) (w : world) : system :=
  System (run_thread_init pipefd0 pipefd1 ∅ w) [].

(** What a run shows after each action: the keys of [active_sockets],
    [total_fd_set], [max_fd] and the records in the pipe. *)
Definition snapshot (y : system) : list Z * list Z * Z * list ctrl_cmd_t :=
  (keys (active_sockets (st y)), merge_sort Z.le (elements (total_fd_set (st y))),
   max_fd (st y), pipe y).

Fixpoint snapshots (l : list action) (y : system)
  : list (list Z * list Z * Z * list ctrl_cmd_t) :=
  match l with
  | [] => []
  | a :: l =>
    match step a y with
    | Undefined _ => []
    | Ok y => snapshot y :: snapshots l y
    end
  end.

(** *** Errors and invariants

    The interface answers [false] and logs; the line logged tells the
    errors apart. *)
Inductive reg_error := INVALID_FD | DUPLICATE_FD | NOT_FOUND | CONTROL_CHANNEL_IO_ERROR.

Definition error_of (l : log_entry) : option reg_error :=
  if decide (log_lvl l ≠ LError) then None
  else if decide (log_fmt l = "Provided SCTP socket must be already open"%string)
  then Some INVALID_FD
  else if decide (log_fmt l = "Tried to register fd=%d, but this fd already exists"%string)
  then Some DUPLICATE_FD
  else if decide (log_fmt l = "The socket fd=%d to be removed does not exist"%string)
  then Some NOT_FOUND
  else if decide (log_fmt l = "while writing to control pipe"%string)
  then Some CONTROL_CHANNEL_IO_ERROR
  else None.

Definition last_error (s : state) : option reg_error := last (logger s) ≫= error_of.

(** [max_fd] bounds the control descriptor and the whole of [total_fd_set]. *)
Definition covers (s : state) : Prop :=
  pipefd0 s ≤ max_fd s ∧ set_Forall (λ fd, fd ≤ max_fd s) (total_fd_set s).

(** [total_fd_set] holds the control descriptor and keys of
    [active_sockets], nothing else. *)
Definition universe_registered (s : state) : Prop :=
  set_Forall (λ fd, fd = pipefd0 s ∨ is_Some (active_sockets s !! fd)) (total_fd_set s).

(** A world with nothing to receive and no buffer to give. *)
Definition idle : world := World [] ∅ [] [].

End rx_multisocket_handler.

(** ** More of the utilities *)

(** A computation appends to the trace it is given and does not look at
    it. *)
Definition appends {A} (m : Sys A) : Prop :=
  ∀ t, m t = (fst (m []), t ++ snd (m [])).

Module net_utils_tcp.

(** [int tcp_read(int remotefd, void* buf, size_t nbytes)]; [read_ret] is
    what [::read] answers, stored in an [int]. *)
Definition tcp_read (read_ret : Z) (remotefd : Z) : Sys Z :=
  let n := to_int read_ret in
  if decide (n = 0) then
    logf LInfo "TCP connection closed" [];;
    call (Sys_close remotefd);;
    mret 0
  else
    (if decide (n = -1) then
       logf LError "Failed to read from TCP socket." [];;
       logf LStdio "TCP read" []
     else mret tt);;
    mret n.

(** [bool sctp_init_client(socket_handler_t* socket, socket_type socktype,
    const char* bind_addr_str)]. *)
Definition sctp_init_client (k : env) (socket : socket_handler.socket_handler_t)
    (socktype : socket_type) (bind_addr_str : string)
  : Sys (bool * socket_handler.socket_handler_t) :=
  socket_handler.sctp_init_socket k socket socktype bind_addr_str 0.

End net_utils_tcp.

(** ** The life of the handler's thread *)

Module rx_lifecycle.
Import rx_tasks rx_multisocket_handler.

(** The two tasks this file defines, as opposed to any other
    implementation of [recv_task]. *)
Definition is_builtin (t : recv_task) : Prop :=
  match t with
  | recvfrom_pdu_task _ | sctp_recvmsg_pdu_task _ => True
  | other_task _ => False
  end.

(** [wait_thread_finish()] while no registered descriptor has data: the
    thread takes its turns on the records in the pipe. [Some y] is the
    system once the thread has returned; [None] stands for a thread that
    sits in [select] with nothing left to wake it, and a caller that
    waits for good. *)
Fixpoint wait_thread_finish (fuel : nat) (y : system) : outcome (option system) :=
  if negb (running (st y)) then Ok (Some y)
  else
    match fuel with
    | O => Ok None
    | S fuel =>
      if decide (select_answer ∅ y = ∅) then Ok None
      else
        match step (do_turn ∅) y with
        | Undefined what => Undefined what
        | Ok y => wait_thread_finish fuel y
        end
    end.

Definition set_pipefd (p0 p1 : Z) (s : state) : state :=
  State p0 p1 (active_sockets s) (running s) (total_fd_set s) (max_fd s) (logger s) (wld s).

(** [void stop()]; [wr] is what the [write] of the [EXIT] record
    answers. The result carries the descriptors closed. The descriptor
    field of the [EXIT] record is of no use to the thread. *)
Definition stop (wr : Z) (y : system) : outcome (option (system * list syscall)) :=
  let joined :=
    if running (st y) then
      let y := if decide (wr ≠ sizeof_ctrl_cmd_t)
               then System (rxSock LError "while writing to control pipe" [] (st y)) (pipe y)
               else System (st y) (pipe y ++ [CtrlCmd EXIT (-1)]) in
      let y := System (rxSock LDebug "Closing rx socket handler thread" [] (st y)) (pipe y) in
      wait_thread_finish (S (length (pipe y))) y
    else Ok (Some y) in
  match joined with
  | Undefined what => Undefined what
  | Ok None => Ok None
  | Ok (Some y) =>
    if decide (0 ≤ pipefd0 (st y)) then
      let s := set_pipefd (-1) (-1) (st y) in
      Ok (Some (System (rxSock LDebug "closed." [] s) (pipe y),
                [Sys_close (pipefd0 (st y)); Sys_close (pipefd1 (st y))]))
    else Ok (Some (y, []))
  end.

End rx_lifecycle.

(** ** Sample environments

    A host where ["127.0.0.1"] is the one address [inet_pton] accepts
    (it leaves the destination alone otherwise), [socket] answers
    descriptor 3, and the remaining answers are given. *)
Definition inet_pton4_loopback (src : string) (dst : Z) : Z * Z :=
  if decide (src = "127.0.0.1"%string) then (1, 16777343) else (0, dst).

Definition host (events_ret rto_get_ret rto_set_ret init_get_ret init_set_ret bind_ret : Z)
    (send_ret : Z → Z → Z → Z) : env :=
  Env inet_pton4_loopback (λ _ dst, (0, dst)) (λ _ _ _, 3)
      (λ _ _, events_ret) (λ _ o, (rto_get_ret, o)) (λ _ _, rto_set_ret)
      (λ _ o, (init_get_ret, o)) (λ _ _, init_set_ret)
      (SctpRtoinfo 0 3000 60000 1000) (SctpInitmsg 10 10 8 60000)
      (λ _ _, bind_ret) (λ _ _, 0) (λ _ _, 0) send_ret.

(** Every call succeeds. *)
Definition good_host : env := host 0 0 0 0 0 0 (λ _ _ len, len).

(** ** A sample run of the handler

    Descriptor 6 is registered and removed twice in a row; the thread
    serves the first removal; 6 is registered again, and the thread meets
    the second removal before the new [NEW_FD]. Then descriptor 5 is
    registered and removed. The control pipe is on descriptors 3 and 4. *)
Definition stale_remove_run : list rx_multisocket_handler.action :=
  let task := rx_tasks.recvfrom_pdu_task 0 in
  [rx_multisocket_handler.do_add 6 task; rx_multisocket_handler.do_turn ∅;
   rx_multisocket_handler.do_remove 6; rx_multisocket_handler.do_remove 6;
   rx_multisocket_handler.do_turn ∅;
   rx_multisocket_handler.do_add 6 task;
   rx_multisocket_handler.do_turn ∅; rx_multisocket_handler.do_turn ∅;
   rx_multisocket_handler.do_add 5 task; rx_multisocket_handler.do_turn ∅;
   rx_multisocket_handler.do_remove 5; rx_multisocket_handler.do_turn ∅].

(** * Part II: properties *)

Lemma wrap_signed_id w x :
  0 < w → - 2 ^ (w - 1) ≤ x < 2 ^ (w - 1) → wrap_signed w x = x.
Proof.
  intros Hw Hx. unfold wrap_signed.
  assert (E : 2 ^ w = 2 * 2 ^ (w - 1)).
  { replace w with (Z.succ (w - 1)) at 1 by lia. rewrite Z.pow_succ_r; lia. }
  rewrite Z.mod_small; lia.
Qed.

Lemma to_int_id x : - 2 ^ 31 ≤ x < 2 ^ 31 → to_int x = x.
Proof. intros H. apply wrap_signed_id; [lia | exact H]. Qed.

Lemma to_ssize_t_id x : - 2 ^ 63 ≤ x < 2 ^ 63 → to_ssize_t x = x.
Proof. intros H. apply wrap_signed_id; [lia | exact H]. Qed.

Lemma to_size_t_id x : 0 ≤ x < 2 ^ 64 → to_size_t x = x.
Proof. intros H. unfold to_size_t, wrap_unsigned. apply Z.mod_small. exact H. Qed.

Lemma to_uint32_id x : 0 ≤ x < 2 ^ 32 → to_uint32 x = x.
Proof. intros H. unfold to_uint32, wrap_unsigned. apply Z.mod_small. exact H. Qed.


(** Unfolding the trace monad. *)
Ltac sys_unfold :=
  unfold run_sys, mbind, sys_bind, mret, sys_ret, logf, call, emit in *.

(** ** Socket handle: moving *)

Section SocketHandle.
Import socket_handler.

(** [close()] on a handle that holds the sentinel -1 issues no call: -1
    is what the class takes for "owns nothing". *)
Lemma close_invalid_closes_nothing (a : sockaddr_in) :
  run_sys (close (SocketHandler (-1) a)) = (SocketHandler (-1) a, []).
Proof. reflexivity. Qed.

Lemma close_owned (fd : Z) (a : sockaddr_in) :
  0 ≤ fd → run_sys (close (SocketHandler fd a)) = (SocketHandler (-1) a, [Call (Sys_close fd)]).
Proof.
  intros Hfd. unfold close, run_sys. simpl.
  destruct (decide (0 ≤ fd)) as [_ | Hn]; [reflexivity | contradiction].
Qed.

(** C1 (the code departs from the claim). Moving from a handle hands its
    descriptor and address to the destination, but leaves the source
    holding descriptor 0 and not the sentinel -1: a later [close()],
    [reset()] or destruction of the moved-from handle closes descriptor 0.
    This holds for the move constructor and for the move assignment
    between two distinct objects. *)
Theorem moved_from_handle_owns_descriptor_zero (other : socket_handler_t) :
  move_ctor other = (other, SocketHandler 0 sockaddr_in_zero)
  ∧ (h ← move_assign 0 1 (<[1%nat := other]> {[0%nat := empty]});
     mret (h !! 0%nat, h !! 1%nat))
    = Some (Some other, Some (SocketHandler 0 sockaddr_in_zero))
  ∧ run_sys (close (snd (move_ctor other)))
    = (SocketHandler (-1) sockaddr_in_zero, [Call (Sys_close 0)])
  ∧ calls_of (snd (run_sys (reset (snd (move_ctor other))))) = [Sys_close 0]
  ∧ calls_of (snd (run_sys (destroy (snd (move_ctor other))))) = [Sys_close 0].
Proof.
  destruct other as [fd a].
  split; [reflexivity |].
  split.
  { unfold move_assign, store. simpl. simplify_map_eq. simpl. simplify_map_eq. reflexivity. }
  repeat split; reflexivity.
Qed.

(** The handle moved from counts as open: [open_socket] refuses it. *)
Lemma moved_from_handle_refuses_open (k : env) (other : socket_handler_t) :
  fst (fst (run_sys (open_socket k (snd (move_ctor other)) ipv4 stream TCP))) = false.
Proof. reflexivity. Qed.

(** A self-assignment changes nothing. *)
Lemma move_assign_self (l : nat) (h : store) : move_assign l l h = Some h.
Proof. unfold move_assign. destruct (decide (l = l)); [reflexivity | contradiction]. Qed.

End SocketHandle.

(** ** Address and socket utilities *)

Section NetUtils.
Import net_utils.

(** C3 (the code departs from the claim). When the text converts to an
    address, the three-argument [bind_addr] answers success and hands out
    the address whatever becomes of the bind itself: the overload that
    binds reports the failure (descriptor negative, or [bind] not 0), and
    its result is dropped. *)
Theorem bind_addr_text_succeeds_when_bind_fails (k : env) (fd : Z) (str : string) (port : Z)
    (addr_result : option sockaddr_in) :
  fst (inet_pton4 k str 0) = 1 →
  fd < 0 ∨ bind k fd (SockaddrIn AF_INET (htons port) (snd (inet_pton4 k str 0))) ≠ 0 →
  fst (run_sys (bind_addr k fd (SockaddrIn AF_INET (htons port) (snd (inet_pton4 k str 0)))))
    = false
  ∧ fst (run_sys (bind_addr_text k fd str port addr_result))
    = (true, (λ _, SockaddrIn AF_INET (htons port) (snd (inet_pton4 k str 0))) <$> addr_result).
Proof.
  intros Hconv Hfail.
  destruct (inet_pton4 k str 0) as [r dst] eqn:E. cbn in *. subst r.
  set (a := SockaddrIn AF_INET (htons port) dst) in *.
  assert (Hb : ∀ t, fst (bind_addr k fd a t) = false).
  { intros t. unfold bind_addr.
    destruct (decide (fd < 0)) as [Hneg | Hpos]; [reflexivity |].
    cbn. destruct (decide (bind k fd a ≠ 0)) as [Hne | He]; [reflexivity |].
    destruct Hfail as [Hfd | Hbind]; [lia | contradiction]. }
  split; [apply Hb |].
  unfold bind_addr_text, set_sockaddr. cbn. rewrite E.
  destruct (decide (1 ≠ 1)) as [Hne | _]; [contradiction |].
  sys_unfold. cbn. fold a.
  destruct (bind_addr k fd a []) as [b t] eqn:Eb.
  destruct addr_result; reflexivity.
Qed.

Lemma bind_addr_text_succeeds_when_bind_fails_witness :
  fst (inet_pton4 (host 0 0 0 0 0 (-1) (λ _ _ len, len)) "127.0.0.1" 0) = 1
  ∧ bind (host 0 0 0 0 0 (-1) (λ _ _ len, len)) 3 (SockaddrIn 2 15502 16777343) ≠ 0
  ∧ fst (run_sys (bind_addr_text (host 0 0 0 0 0 (-1) (λ _ _ len, len)) 3 "127.0.0.1" 36412
                              (Some sockaddr_in_zero)))
  = (true, Some (SockaddrIn 2 15502 16777343)).
Proof.
  split; [reflexivity |].
  split; [vm_compute; discriminate |].
  refine (proj2 (bind_addr_text_succeeds_when_bind_fails
                   (host 0 0 0 0 0 (-1) (λ _ _ len, len)) 3 "127.0.0.1" 36412
                   (Some sockaddr_in_zero) _ _)).
  - reflexivity.
  - right. vm_compute. discriminate.
Defined.

(** What the dropped result does to a caller: with a failing [bind],
    [sctp_init_socket] takes the socket for bound and keeps it open. *)
Lemma sctp_init_socket_with_failed_bind :
  fst (run_sys (socket_handler.sctp_init_socket (host 0 0 0 0 0 (-1) (λ _ _ len, len))
                  socket_handler.empty seqpacket "127.0.0.1" 36412))
  = (true, socket_handler.SocketHandler 3 (SockaddrIn 2 15502 16777343)).
Proof. reflexivity. Qed.

(** [connect_to], next to it, does report what [connect] answers. *)
Lemma connect_to_reports_failure (k : env) (fd : Z) (str : string) (port : Z)
    (dest : option sockaddr_in) :
  0 ≤ fd →
  fst (inet_pton4 k str 0) = 1 →
  connect k fd (SockaddrIn AF_INET (htons port) (snd (inet_pton4 k str 0))) = -1 →
  fst (fst (run_sys (connect_to k fd str port dest))) = false.
Proof.
  intros Hfd Hconv Hc.
  destruct (inet_pton4 k str 0) as [r dst] eqn:E. cbn in *. subst r.
  unfold connect_to, set_sockaddr. cbn. rewrite E.
  destruct (decide (fd < 0)) as [Hneg | _]; [lia |].
  destruct (decide (1 ≠ 1)) as [Hne | _]; [contradiction |].
  sys_unfold. cbn.
  destruct (decide (connect k fd (SockaddrIn AF_INET (htons port) dst) = -1)) as [_ | Hn];
    [reflexivity | contradiction].
Qed.

(** C7, as stated, fails: a text that does not parse leaves the family
    field of the address set. Here an all-zero address comes back with
    family [AF_INET]. *)
Lemma set_sockaddr_failure_sets_family :
  run_sys (set_sockaddr good_host sockaddr_in_zero "not an address" 80)
  = (false, SockaddrIn AF_INET 0 0, [Logged (Log LStdio "inet_pton" [])])
  ∧ sin_family (SockaddrIn AF_INET 0 0) ≠ sin_family sockaddr_in_zero.
Proof. split; [reflexivity | discriminate]. Qed.

(** C7 (amended). The conversion either succeeds, and then family,
    address and port are filled in, or fails, and then (with an
    [inet_pton] that leaves its destination alone when it fails) the
    address and port fields are as before and the family field alone is
    set, to [AF_INET] or [AF_INET6]. *)
Theorem set_sockaddr_frame (k : env) (a4 : sockaddr_in) (a6 : sockaddr_in6)
    (str : string) (port : Z) :
  (fst (inet_pton4 k str (sin_addr a4)) = 1 →
   fst (run_sys (set_sockaddr k a4 str port))
   = (true, SockaddrIn AF_INET (htons port) (snd (inet_pton4 k str (sin_addr a4)))))
  ∧ (fst (inet_pton4 k str (sin_addr a4)) ≠ 1 →
     snd (inet_pton4 k str (sin_addr a4)) = sin_addr a4 →
     fst (run_sys (set_sockaddr k a4 str port))
     = (false, SockaddrIn AF_INET (sin_port a4) (sin_addr a4)))
  ∧ (fst (inet_pton6 k str (sin6_addr a6)) = 1 →
     fst (run_sys (set_sockaddr6 k a6 str port))
     = (true, SockaddrIn6 AF_INET6 (htons port) (sin6_flowinfo a6)
                          (snd (inet_pton6 k str (sin6_addr a6))) (sin6_scope_id a6)))
  ∧ (fst (inet_pton6 k str (sin6_addr a6)) ≠ 1 →
     snd (inet_pton6 k str (sin6_addr a6)) = sin6_addr a6 →
     fst (run_sys (set_sockaddr6 k a6 str port))
     = (false, SockaddrIn6 AF_INET6 (sin6_port a6) (sin6_flowinfo a6)
                           (sin6_addr a6) (sin6_scope_id a6))).
Proof.
  unfold set_sockaddr, set_sockaddr6. cbn.
  destruct (inet_pton4 k str (sin_addr a4)) as [r4 d4].
  destruct (inet_pton6 k str (sin6_addr a6)) as [r6 d6]. cbn.
  repeat split.
  - intros ->. destruct (decide (1 ≠ 1)); [contradiction | reflexivity].
  - intros Hr ->. destruct (decide (r4 ≠ 1)); [reflexivity | contradiction].
  - intros ->. destruct (decide (1 ≠ 1)); [contradiction | reflexivity].
  - intros Hr ->. destruct (decide (r6 ≠ 1)); [reflexivity | contradiction].
Qed.

Lemma set_sockaddr_frame_witness :
  fst (run_sys (set_sockaddr good_host sockaddr_in_zero "127.0.0.1" 36412))
  = (true, SockaddrIn 2 15502 16777343)
  ∧ fst (run_sys (set_sockaddr good_host (SockaddrIn 0 7 9) "example.org" 36412))
    = (false, SockaddrIn 2 7 9)
  ∧ fst (run_sys (set_sockaddr6 good_host sockaddr_in6_zero "example.org" 36412))
    = (false, SockaddrIn6 10 0 0 (replicate 16 0) 0).
Proof.
  split; [| split].
  - apply (proj1 (set_sockaddr_frame good_host sockaddr_in_zero sockaddr_in6_zero
                    "127.0.0.1" 36412)).
    reflexivity.
  - apply (proj1 (proj2 (set_sockaddr_frame good_host (SockaddrIn 0 7 9) sockaddr_in6_zero
                           "example.org" 36412))).
    + vm_compute. discriminate.
    + reflexivity.
  - apply (proj2 (proj2 (proj2 (set_sockaddr_frame good_host sockaddr_in_zero sockaddr_in6_zero
                                  "example.org" 36412)))).
    + vm_compute. discriminate.
    + reflexivity.
Defined.

(** C5, as stated, fails: when reading the RTO configuration fails,
    [open_socket] gives up with -1 although the descriptor is open and
    neither adjustment has failed: neither is even attempted. *)
Lemma open_socket_fails_when_rto_read_fails :
  socket (host 0 (-1) 0 0 0 0 (λ _ _ len, len)) ipv4 seqpacket SCTP = 3
  ∧ (∀ fd o, setsockopt_rtoinfo (host 0 (-1) 0 0 0 0 (λ _ _ len, len)) fd o = 0)
  ∧ (∀ fd o, setsockopt_initmsg (host 0 (-1) 0 0 0 0 (λ _ _ len, len)) fd o = 0)
  ∧ run_sys (open_socket (host 0 (-1) 0 0 0 0 (λ _ _ len, len)) ipv4 seqpacket SCTP)
    = (-1, [Call Sys_socket;
            Call (Sys_setsockopt_events 3 (SctpEvents 1 1 1));
            Call (Sys_getsockopt_rtoinfo 3);
            Logged (Log LStdio "Error getting RTO_INFO sockopts\n" [])])
  ∧ fst (run_sys (open_socket (host 0 (-1) 0 0 0 0 (λ _ _ len, len)) ipv4 seqpacket SCTP))
    ≠ socket (host 0 (-1) 0 0 0 0 (λ _ _ len, len)) ipv4 seqpacket SCTP.
Proof.
  split; [reflexivity |]. split; [reflexivity |]. split; [reflexivity |].
  split; [reflexivity |]. vm_compute. discriminate.
Qed.

(** C5 (amended). With the descriptor open, an SCTP [open_socket] fails
    exactly when reading the RTO configuration, setting it, or setting the
    INITMSG parameters fails; otherwise it returns the descriptor,
    whatever the subscription to notifications and the reading of the
    INITMSG configuration answer. *)
Theorem open_socket_sctp_fatal_steps (k : env) (ip : addr_family) (st : socket_type) :
  let fd := socket k ip st SCTP in
  let rto_get :=
    getsockopt_rtoinfo k fd (SctpRtoinfo 0 (srto_initial (stack_rtoinfo k))
                                         (srto_max (stack_rtoinfo k))
                                         (srto_min (stack_rtoinfo k))) in
  let rto_opts := SctpRtoinfo (srto_assoc_id (snd rto_get)) (srto_initial (snd rto_get))
                              6000 (srto_min (snd rto_get)) in
  let init_get := getsockopt_initmsg k fd (stack_initmsg k) in
  let init_opts := SctpInitmsg (sinit_num_ostreams (snd init_get))
                               (sinit_max_instreams (snd init_get)) 3 5000 in
  fd ≠ -1 →
  fst (run_sys (open_socket k ip st SCTP))
  = if decide (fst rto_get < 0 ∨ setsockopt_rtoinfo k fd rto_opts < 0
               ∨ setsockopt_initmsg k fd init_opts < 0)
    then -1 else fd.
Proof.
  intros fd rto_get rto_opts init_get init_opts Hfd.
  unfold open_socket. fold fd.
  destruct (decide (fd = -1)) as [He | _]; [contradiction |].
  destruct (decide (SCTP = SCTP)) as [_ | Hn]; [| contradiction].
  sys_unfold. cbn.
  destruct (decide (setsockopt_events k fd (SctpEvents 1 1 1) ≠ 0)); cbn;
    fold rto_get; destruct rto_get as [r1 o1] eqn:E1; cbn in *;
    (destruct (decide (r1 < 0)) as [H1 | H1]; cbn;
     [ destruct (decide _) as [_ | Hn]; [reflexivity | exfalso; apply Hn; left; exact H1] | ]);
    fold rto_opts;
    (destruct (decide (setsockopt_rtoinfo k fd rto_opts < 0)) as [H2 | H2]; cbn;
     [ destruct (decide _) as [_ | Hn];
       [reflexivity | exfalso; apply Hn; right; left; exact H2] | ]);
    fold init_get; destruct init_get as [r2 o2] eqn:E2; cbn in *;
    destruct (decide (r2 < 0)); cbn; fold init_opts;
    (destruct (decide (setsockopt_initmsg k fd init_opts < 0)) as [H3 | H3]; cbn;
     [ destruct (decide _) as [_ | Hn];
       [reflexivity | exfalso; apply Hn; right; right; exact H3]
     | destruct (decide _) as [Hy | _]; [lia | reflexivity] ]).
Qed.

(** The subscription and the reading of the INITMSG configuration fail,
    the three fatal steps succeed: the descriptor comes back. *)
Lemma open_socket_sctp_fatal_steps_witness :
  socket (host (-1) 0 0 (-1) 0 0 (λ _ _ len, len)) ipv4 seqpacket SCTP ≠ -1
  ∧ fst (run_sys (open_socket (host (-1) 0 0 (-1) 0 0 (λ _ _ len, len)) ipv4 seqpacket SCTP))
    = 3.
Proof.
  split; [vm_compute; discriminate |].
  apply (open_socket_sctp_fatal_steps (host (-1) 0 0 (-1) 0 0 (λ _ _ len, len))
           ipv4 seqpacket).
  vm_compute. discriminate.
Defined.

(** What a successful SCTP [open_socket] has asked the kernel for: a
    maximum RTO of 6000 ms, 3 attempts and 5000 ms for the INIT. *)
Lemma open_socket_sctp_configures :
  calls_of (snd (run_sys (open_socket good_host ipv4 seqpacket SCTP)))
  = [Sys_socket;
     Sys_setsockopt_events 3 (SctpEvents 1 1 1);
     Sys_getsockopt_rtoinfo 3;
     Sys_setsockopt_rtoinfo 3 (SctpRtoinfo 0 3000 6000 1000);
     Sys_getsockopt_initmsg 3;
     Sys_setsockopt_initmsg 3 (SctpInitmsg 10 10 3 5000)].
Proof. reflexivity. Qed.

(** *** [tcp_send] *)

Lemma bytes_sent_app (k : env) (t t' : list event) :
  bytes_sent k (t ++ t') = bytes_sent k t + bytes_sent k t'.
Proof.
  unfold bytes_sent.
  induction t as [| e t IH]; cbn [foldr app]; [lia |].
  destruct e as [[] | ]; lia.
Qed.

Section TcpSendLoop.
Variable k : env.
Variable fd : Z.

(** What [send] answers, as POSIX has it: -1, or a count up to the
    length it was given. *)
Hypothesis send_range : ∀ off len, 0 < len → -1 ≤ send k fd off len ≤ len.

(** The loop, started with [nbytes_remaining] bytes to go and enough
    fuel for them, ends: either with nothing left, or at a [send] that
    answered 0 or -1. *)
Lemma tcp_send_loop_spec (fuel : nat) :
  ∀ (ptr nbytes_remaining : Z) (t : list event),
    0 ≤ nbytes_remaining < 2 ^ 63 →
    (Z.to_nat nbytes_remaining < fuel)%nat →
    ∃ res t',
      tcp_send_loop k fd fuel ptr nbytes_remaining t = (Some res, t')
      ∧ ((res = inr 0 ∧ bytes_sent k t' = bytes_sent k t + nbytes_remaining)
         ∨ (∃ i t0 off len,
               res = inl i ∧ (i = 0 ∨ i = -1)
               ∧ t' = t0 ++ [Call (Sys_send fd off len);
                             Logged (Log LError "Failed to send data to TCP socket" []);
                             Logged (Log LStdio "Error calling send()\n" [])]
               ∧ send k fd off len = i
               ∧ bytes_sent k t ≤ bytes_sent k t' < bytes_sent k t + nbytes_remaining)).
Proof.
  induction fuel as [| fuel IH]; intros ptr rem t Hrem Hfuel; [lia |].
  cbn [tcp_send_loop].
  destruct (decide (rem > 0)) as [Hpos | Hzero].
  - sys_unfold. cbn.
    pose proof (send_range ptr rem ltac:(lia)) as Hsend.
    rewrite to_ssize_t_id by lia.
    destruct (decide (send k fd ptr rem < 1)) as [Hfail | Hprog].
    + eexists _, _. split; [reflexivity |]. right.
      exists (send k fd ptr rem), t, ptr, rem.
      split; [reflexivity |].
      split; [lia |].
      split; [by rewrite <- !app_assoc |].
      split; [reflexivity |].
      rewrite <- !app_assoc, bytes_sent_app. cbn.
      rewrite to_ssize_t_id by lia. lia.
    + rewrite to_ssize_t_id by lia.
      destruct (IH (ptr + send k fd ptr rem) (rem - send k fd ptr rem)
                   (t ++ [Call (Sys_send fd ptr rem)]))
        as (res & t' & Hrun & Hres); [lia | lia |].
      exists res, t'. split; [exact Hrun |].
      rewrite bytes_sent_app in Hres. cbn in Hres.
      rewrite to_ssize_t_id in Hres by lia.
      destruct Hres as [[-> Hb] | (i & t0 & off & len & -> & Hi & Ht & Hs & Hb)].
      * left. split; [reflexivity | lia].
      * right. exists i, t0, off, len. repeat split; try assumption; lia.
  - exists (inr rem), t. split; [reflexivity |].
    left. assert (rem = 0) as -> by lia. split; [reflexivity | lia].
Qed.

End TcpSendLoop.

(** C6, as stated, fails: 4 of 10 bytes go out, the next [send] answers
    -1, and [tcp_send] returns -1, not 4. *)
Lemma tcp_send_returns_error_after_partial_send :
  fst (run_sys (tcp_send (host 0 0 0 0 0 0 (λ _ off _, if decide (off = 0) then 4 else -1))
                         7 10))
  = Some (-1)
  ∧ bytes_sent (host 0 0 0 0 0 0 (λ _ off _, if decide (off = 0) then 4 else -1))
      (snd (run_sys (tcp_send
                       (host 0 0 0 0 0 0 (λ _ off _, if decide (off = 0) then 4 else -1))
                       7 10)))
    = 4
  ∧ fst (run_sys (tcp_send (host 0 0 0 0 0 0 (λ _ off _, if decide (off = 0) then 4 else -1))
                           7 10))
    ≠ Some (bytes_sent (host 0 0 0 0 0 0 (λ _ off _, if decide (off = 0) then 4 else -1))
              (snd (run_sys (tcp_send
                               (host 0 0 0 0 0 0
                                     (λ _ off _, if decide (off = 0) then 4 else -1))
                               7 10)))).
Proof. split; [reflexivity |]. split; [reflexivity |]. vm_compute. discriminate. Qed.

(** C6 (amended). For a byte count that fits the [int] result and a
    [send] that answers between -1 and the length it is given, [tcp_send]
    returns: either every byte has gone out and the result is the byte
    count, or some [send] answered 0 or -1, the result is that answer, and
    fewer bytes than asked have gone out. *)
Theorem tcp_send_result (k : env) (fd nbytes : Z) :
  0 ≤ nbytes ≤ INT_MAX →
  (∀ off len, 0 < len → -1 ≤ send k fd off len ≤ len) →
  ∃ r t,
    run_sys (tcp_send k fd nbytes) = (Some r, t)
    ∧ ((r = nbytes ∧ bytes_sent k t = nbytes)
       ∨ ((r = 0 ∨ r = -1)
          ∧ (∃ t0 off len,
                t = t0 ++ [Call (Sys_send fd off len);
                           Logged (Log LError "Failed to send data to TCP socket" []);
                           Logged (Log LStdio "Error calling send()\n" [])]
                ∧ send k fd off len = r)
          ∧ bytes_sent k t < nbytes)).
Proof.
  intros Hn Hsend. unfold INT_MAX in Hn.
  unfold tcp_send, run_sys.
  rewrite to_ssize_t_id by lia.
  destruct (tcp_send_loop_spec k fd Hsend (S (Z.to_nat nbytes)) 0 nbytes [])
    as (res & t' & Hrun & Hres); [lia | lia |].
  unfold mbind at 1. unfold sys_bind. rewrite Hrun.
  destruct Hres as [[-> Hb] | (i & t0 & off & len & -> & Hi & Ht & Hs & Hb)].
  - eexists _, _. split; [reflexivity |]. left.
    cbn in Hb. split; [| lia].
    rewrite Z.sub_0_r, to_size_t_id, to_int_id; lia.
  - eexists _, _. split; [reflexivity |]. right.
    cbn in Hb.
    assert (Hi' : to_int i = i) by (apply to_int_id; lia).
    rewrite Hi'. split; [exact Hi |]. split; [| lia].
    exists t0, off, len. split; assumption.
Qed.

Lemma tcp_send_result_witness :
  0 ≤ 10 ≤ INT_MAX
  ∧ ∃ r t,
      run_sys (tcp_send (host 0 0 0 0 0 0 (λ _ _ len, Z.min 4 len)) 7 10) = (Some r, t)
      ∧ ((r = 10 ∧ bytes_sent (host 0 0 0 0 0 0 (λ _ _ len, Z.min 4 len)) t = 10)
         ∨ ((r = 0 ∨ r = -1)
            ∧ (∃ t0 off len,
                  t = t0 ++ [Call (Sys_send 7 off len);
                             Logged (Log LError "Failed to send data to TCP socket" []);
                             Logged (Log LStdio "Error calling send()\n" [])]
                  ∧ send (host 0 0 0 0 0 0 (λ _ _ len, Z.min 4 len)) 7 off len = r)
            ∧ bytes_sent (host 0 0 0 0 0 0 (λ _ _ len, Z.min 4 len)) t < 10)).
Proof.
  split; [unfold INT_MAX; lia |].
  apply (tcp_send_result (host 0 0 0 0 0 0 (λ _ _ len, Z.min 4 len)) 7 10).
  - unfold INT_MAX. lia.
  - intros off len Hlen. cbn. lia.
Defined.

(** The same run, evaluated: three calls, 4 + 4 + 2 bytes. *)
Lemma tcp_send_three_rounds :
  run_sys (tcp_send (host 0 0 0 0 0 0 (λ _ _ len, Z.min 4 len)) 7 10)
  = (Some 10, [Call (Sys_send 7 0 10); Call (Sys_send 7 4 6); Call (Sys_send 7 8 2)]).
Proof. reflexivity. Qed.

End NetUtils.

(** ** Receive tasks *)

Section RxTasks.
Import rx_tasks.



(** Without a buffer, or on a read error other than would-block, the
    task answers [true] as well and invokes nothing. *)
Lemma recvfrom_pdu_task_always_valid (func : nat) (fd : Z) (w : world) :
  fst (recvfrom_pdu_task_call func fd w) = true.
Proof.
  unfold recvfrom_pdu_task_call.
  destruct (make_byte_buffer w) as [[pdu |] w1]; [| reflexivity].
  destruct (receive fd w1) as [a w2].
  repeat (destruct (decide _)); reflexivity.
Qed.

Lemma recvfrom_pdu_task_pool_exhausted (func : nat) (fd : Z) (w : world) :
  pool w = [] ∨ (∃ p, pool w = None :: p) →
  delivered (snd (recvfrom_pdu_task_call func fd w)) = delivered w.
Proof.
  unfold recvfrom_pdu_task_call, make_byte_buffer.
  intros [-> | [p ->]]; reflexivity.
Qed.

End RxTasks.

(** ** The rx multisocket handler *)

Section Registration.
Import rx_tasks rx_multisocket_handler.

(** C8. Registering a negative descriptor fails with the line for an
    invalid descriptor, registering a descriptor that is a key of
    [active_sockets] fails with the line for a duplicate, and removing a
    descriptor that is no key fails with the line for a missing one. In
    the three cases no message is written and the state is as before but
    for the line logged. *)
Theorem registration_errors (wr fd : Z) (handler : recv_task) (s : state) :
  (fd < 0 →
   ∃ s', add_socket_handler wr fd handler s = (false, s', None)
         ∧ last_error s' = Some INVALID_FD
         ∧ active_sockets s' = active_sockets s
         ∧ total_fd_set s' = total_fd_set s ∧ max_fd s' = max_fd s)
  ∧ (is_Some (active_sockets s !! fd) →
     0 ≤ fd →
     ∃ s', add_socket_handler wr fd handler s = (false, s', None)
           ∧ last_error s' = Some DUPLICATE_FD
           ∧ active_sockets s' = active_sockets s
           ∧ total_fd_set s' = total_fd_set s ∧ max_fd s' = max_fd s)
  ∧ (active_sockets s !! fd = None →
     ∃ s', remove_socket wr fd s = (false, s', None)
           ∧ last_error s' = Some NOT_FOUND
           ∧ active_sockets s' = active_sockets s
           ∧ total_fd_set s' = total_fd_set s ∧ max_fd s' = max_fd s).
Proof.
  split; [| split].
  - intros Hneg. unfold add_socket_handler.
    destruct (decide (fd < 0)) as [_ | Hn]; [| contradiction].
    eexists. split; [reflexivity |].
    unfold last_error. cbn. rewrite last_snoc. repeat split; reflexivity.
  - intros Hdup Hpos. unfold add_socket_handler.
    destruct (decide (fd < 0)) as [Hneg | _]; [lia |].
    destruct (decide (is_Some (active_sockets s !! fd))) as [_ | Hn]; [| contradiction].
    eexists. split; [reflexivity |].
    unfold last_error. cbn. rewrite last_snoc. repeat split; reflexivity.
  - intros Habs. unfold remove_socket, map_find. rewrite Habs.
    eexists. split; [reflexivity |].
    unfold last_error. cbn. rewrite last_snoc. repeat split; reflexivity.
Qed.

Lemma registration_errors_witness :
  fst (fst (add_socket_handler 8 (-1) (recvfrom_pdu_task 0)
              (run_thread_init 3 4 {[5 := recvfrom_pdu_task 0]} idle))) = false
  ∧ fst (fst (add_socket_handler 8 5 (recvfrom_pdu_task 1)
                (run_thread_init 3 4 {[5 := recvfrom_pdu_task 0]} idle))) = false
  ∧ fst (fst (remove_socket 8 6
                (run_thread_init 3 4 {[5 := recvfrom_pdu_task 0]} idle))) = false.
Proof.
  split; [| split].
  - destruct (proj1 (registration_errors 8 (-1) (recvfrom_pdu_task 0)
                       (run_thread_init 3 4 {[5 := recvfrom_pdu_task 0]} idle)))
      as (s' & -> & _); [lia | reflexivity].
  - destruct (proj1 (proj2 (registration_errors 8 5 (recvfrom_pdu_task 1)
                              (run_thread_init 3 4 {[5 := recvfrom_pdu_task 0]} idle))))
      as (s' & -> & _); [by eexists | lia | reflexivity].
  - destruct (proj2 (proj2 (registration_errors 8 6 (recvfrom_pdu_task 1)
                              (run_thread_init 3 4 {[5 := recvfrom_pdu_task 0]} idle))))
      as (s' & -> & _); [reflexivity | reflexivity].
Defined.

(** A registration that goes through: the entry is there and the
    message for the thread is [NEW_FD]. *)
Lemma add_socket_handler_ok (fd : Z) (handler : recv_task) (s : state) :
  0 ≤ fd →
  active_sockets s !! fd = None →
  ∃ s', add_socket_handler sizeof_ctrl_cmd_t fd handler s = (true, s', Some (CtrlCmd NEW_FD fd))
        ∧ active_sockets s' = <[fd := handler]> (active_sockets s)
        ∧ total_fd_set s' = total_fd_set s ∧ max_fd s' = max_fd s.
Proof.
  intros Hpos Habs. unfold add_socket_handler.
  destruct (decide (fd < 0)) as [Hneg | _]; [lia |].
  destruct (decide (is_Some (active_sockets s !! fd))) as [[x Hx] | _]; [congruence |].
  destruct (decide (sizeof_ctrl_cmd_t ≠ sizeof_ctrl_cmd_t)) as [Hn | _]; [contradiction |].
  eexists. repeat split; reflexivity.
Qed.

(** The keys of [active_sockets] stay non-negative: the interface puts
    no other in. *)
Lemma add_socket_handler_keys_nonneg (wr fd : Z) (handler : recv_task) (s : state) :
  map_Forall (λ k _, 0 ≤ k) (active_sockets s) →
  map_Forall (λ k _, 0 ≤ k) (active_sockets (snd (fst (add_socket_handler wr fd handler s)))).
Proof.
  intros Hall. unfold add_socket_handler.
  destruct (decide (fd < 0)); [exact Hall |].
  destruct (decide (is_Some (active_sockets s !! fd))); [exact Hall |].
  destruct (decide (wr ≠ sizeof_ctrl_cmd_t)); cbn;
    (apply map_Forall_insert_2; [lia | exact Hall]).
Qed.

End Registration.

Section Thread.
Import rx_tasks rx_multisocket_handler.



(** The writers, for their part, take anything but a whole record for an
    error. *)
Lemma short_write_is_an_error (wr fd : Z) (handler : recv_task) (s : state) :
  0 ≤ fd →
  active_sockets s !! fd = None →
  wr ≠ sizeof_ctrl_cmd_t →
  ∃ s', add_socket_handler wr fd handler s = (false, s', Some (CtrlCmd NEW_FD fd))
        ∧ last_error s' = Some CONTROL_CHANNEL_IO_ERROR.
Proof.
  intros Hpos Habs Hwr. unfold add_socket_handler.
  destruct (decide (fd < 0)) as [Hneg | _]; [lia |].
  destruct (decide (is_Some (active_sockets s !! fd))) as [[x Hx] | _]; [congruence |].
  destruct (decide (wr ≠ sizeof_ctrl_cmd_t)) as [_ | Hn]; [| contradiction].
  eexists. split; [reflexivity |].
  unfold last_error. cbn. rewrite last_snoc. reflexivity.
Qed.

(** *** Removal *)

(** Removing a key of [active_sockets]. *)
Lemma remove_socket_unprotected_present (fd : Z) (s : state) :
  0 ≤ fd →
  is_Some (active_sockets s !! fd) →
  ∃ s', remove_socket_unprotected fd s = Ok (s', map_next (active_sockets s) fd)
        ∧ pipefd0 s' = pipefd0 s
        ∧ active_sockets s' = delete fd (active_sockets s)
        ∧ total_fd_set s' = total_fd_set s ∖ {[fd]}
        ∧ max_fd s' = match map_rbegin (delete fd (active_sockets s)) with
                      | None => pipefd0 s
                      | Some k => Z.max (pipefd0 s) k
                      end
        ∧ wld s' = wld s ∧ running s' = running s.
Proof.
  intros Hpos [x Hx]. unfold remove_socket_unprotected, map_find.
  destruct (decide (fd < 0)) as [Hneg | _]; [lia |].
  rewrite Hx. cbn.
  eexists. repeat split; reflexivity.
Qed.

(** Removing a negative descriptor: a line in the log, nothing else. *)
Lemma remove_socket_unprotected_negative (fd : Z) (s : state) :
  fd < 0 →
  remove_socket_unprotected fd s
  = Ok (rxSock LError "fd to be removed is not valid" [] s, None).
Proof.
  intros Hneg. unfold remove_socket_unprotected.
  destruct (decide (fd < 0)) as [_ | Hn]; [reflexivity | contradiction].
Qed.

(** Removing a descriptor that is no key: the lookup answers [end()],
    and [end()] is erased. *)
Lemma remove_socket_unprotected_absent (fd : Z) (s : state) :
  0 ≤ fd →
  active_sockets s !! fd = None →
  remove_socket_unprotected fd s = Undefined "std::map::erase(end())".
Proof.
  intros Hpos Habs. unfold remove_socket_unprotected, map_find.
  destruct (decide (fd < 0)) as [Hneg | _]; [lia |].
  rewrite Habs. reflexivity.
Qed.

(** C2 (the code departs from the claim). Removing a descriptor that is
    not negative and is no key of [active_sockets] erases the [end()]
    iterator that the lookup returns: the removal, and with it the
    handling of an [RM_FD] message for that descriptor, is undefined. *)
Theorem remove_absent_descriptor_is_undefined (fd nrd : Z) (s : state) :
  0 ≤ fd →
  active_sockets s !! fd = None →
  0 < nrd →
  remove_socket_unprotected fd s = Undefined "std::map::erase(end())"
  ∧ handle_ctrl nrd (CtrlCmd RM_FD fd) s = Undefined "std::map::erase(end())".
Proof.
  intros Hpos Habs Hnrd.
  pose proof (remove_socket_unprotected_absent fd s Hpos Habs) as H.
  split; [exact H |].
  unfold handle_ctrl.
  destruct (decide (nrd ≤ 0)) as [Hle | _]; [lia |].
  cbn. rewrite H. reflexivity.
Qed.

Lemma remove_absent_descriptor_is_undefined_witness :
  active_sockets (run_thread_init 3 4 ∅ idle) !! 6 = None
  ∧ handle_ctrl sizeof_ctrl_cmd_t (CtrlCmd RM_FD 6) (run_thread_init 3 4 ∅ idle)
    = Undefined "std::map::erase(end())".
Proof.
  split; [reflexivity |].
  apply (remove_absent_descriptor_is_undefined 6 sizeof_ctrl_cmd_t
           (run_thread_init 3 4 ∅ idle)).
  - lia.
  - reflexivity.
  - unfold sizeof_ctrl_cmd_t. lia.
Defined.

(** Such a message does arrive: a caller removes descriptor 6 twice
    before the thread has taken the first message; both calls find the
    entry and write [RM_FD]. The thread removes the entry on the first
    message and meets the second with the entry gone. *)
Lemma double_remove_reaches_undefined :
  run [do_add 6 (recvfrom_pdu_task 0); do_turn ∅; do_remove 6; do_remove 6;
       do_turn ∅; do_turn ∅] (start 3 4 idle)
  = Undefined "std::map::erase(end())".
Proof. vm_compute. reflexivity. Qed.

(** *** The bound of the wait set *)

Lemma last_of_sorted (l : list Z) (x : Z) :
  StronglySorted Z.le l → x ∈ l → ∃ mx, last l = Some mx ∧ x ≤ mx.
Proof.
  revert x. induction l as [| y l IH]; intros x Hs Hx.
  - by apply elem_of_nil in Hx.
  - apply StronglySorted_inv in Hs as [Hs Hall].
    destruct l as [| z l].
    + apply list_elem_of_singleton in Hx as ->. exists y. split; [reflexivity | lia].
    + rewrite last_cons_cons.
      apply elem_of_cons in Hx as [-> | Hx].
      * destruct (IH z Hs ltac:(left)) as (mx & Hl & Hz).
        exists mx. split; [exact Hl |].
        apply Forall_cons_1 in Hall as [Hyz _]. lia.
      * exact (IH x Hs Hx).
Qed.

Lemma keys_elem_of (m : gmap Z recv_task) (x : Z) : x ∈ keys m ↔ is_Some (m !! x).
Proof.
  unfold keys. rewrite merge_sort_Permutation, elem_of_elements, elem_of_dom. reflexivity.
Qed.

(** [rbegin()] is the largest key. *)
Lemma map_rbegin_bound (m : gmap Z recv_task) (x : Z) :
  is_Some (m !! x) → ∃ mx, map_rbegin m = Some mx ∧ x ≤ mx.
Proof.
  intros Hx. unfold map_rbegin.
  apply last_of_sorted.
  - unfold keys. apply StronglySorted_merge_sort; apply _.
  - by apply keys_elem_of.
Qed.

Lemma covers_ext (s s' : state) :
  pipefd0 s' = pipefd0 s → max_fd s' = max_fd s → total_fd_set s' = total_fd_set s →
  covers s → covers s'.
Proof. unfold covers. intros -> -> ->. auto. Qed.

Lemma universe_registered_ext (s s' : state) :
  pipefd0 s' = pipefd0 s → active_sockets s' = active_sockets s →
  total_fd_set s' = total_fd_set s →
  universe_registered s → universe_registered s'.
Proof. unfold universe_registered. intros -> -> ->. auto. Qed.

Lemma run_thread_init_covers (p0 p1 : Z) (m : gmap Z recv_task) (w : world) :
  covers (run_thread_init p0 p1 m w) ∧ universe_registered (run_thread_init p0 p1 m w).
Proof.
  unfold covers, universe_registered. cbn. repeat split.
  - lia.
  - apply set_Forall_singleton. lia.
  - apply set_Forall_singleton. by left.
Qed.

(** The [NEW_FD] step keeps the bound, whatever the descriptor. *)
Lemma new_fd_covers (s : state) (nrd fd : Z) :
  covers s → ∃ s', handle_ctrl nrd (CtrlCmd NEW_FD fd) s = Ok s' ∧ covers s'.
Proof.
  intros [Hp Hall]. unfold handle_ctrl.
  destruct (decide (nrd ≤ 0)).
  { eexists. split; [reflexivity |]. split; assumption. }
  cbn. destruct (decide (0 ≤ fd)).
  - eexists. split; [reflexivity |]. unfold covers. cbn. split; [lia |].
    apply set_Forall_union.
    + apply set_Forall_singleton. lia.
    + intros x Hx. specialize (Hall x Hx). cbn in Hall. lia.
  - eexists. split; [reflexivity |]. split; assumption.
Qed.

(** The removal step keeps the bound when every descriptor of the
    universe, the control descriptor apart, is a key of [active_sockets]. *)
Lemma remove_socket_unprotected_covers (s : state) (fd : Z) :
  covers s → universe_registered s →
  fd < 0 ∨ is_Some (active_sockets s !! fd) →
  ∃ s' it, remove_socket_unprotected fd s = Ok (s', it)
           ∧ pipefd0 s' = pipefd0 s ∧ wld s' = wld s
           ∧ covers s' ∧ universe_registered s'.
Proof.
  intros Hc Hu Hfd.
  destruct (decide (fd < 0)) as [Hneg | Hpos].
  { rewrite remove_socket_unprotected_negative by exact Hneg.
    eexists _, _. split; [reflexivity |].
    split; [reflexivity |]. split; [reflexivity |]. split; [exact Hc | exact Hu]. }
  destruct Hfd as [Hneg | Hin]; [lia |].
  destruct (remove_socket_unprotected_present fd s ltac:(lia) Hin)
    as (s' & Hrun & Hp & Ha & Ht & Hm & Hw & _).
  exists s', (map_next (active_sockets s) fd).
  split; [exact Hrun |]. split; [exact Hp |]. split; [exact Hw |].
  destruct Hc as [Hpm Hall].
  assert (Hu' : universe_registered s').
  { unfold universe_registered. rewrite Hp, Ha, Ht.
    intros x Hx. apply elem_of_difference in Hx as [Hx Hne].
    destruct (Hu x Hx) as [-> | Hsome]; [by left | right].
    rewrite lookup_delete_ne; [exact Hsome |].
    intros ->. apply Hne. by apply elem_of_singleton. }
  split; [| exact Hu'].
  unfold covers. rewrite Hp, Ht, Hm.
  split.
  - destruct (map_rbegin _); lia.
  - intros x Hx. cbn.
    destruct (Hu' x ltac:(by rewrite Ht)) as [Hxp | Hsome].
    + rewrite Hp in Hxp. subst x. destruct (map_rbegin _); lia.
    + rewrite Ha in Hsome.
      destruct (map_rbegin_bound _ _ Hsome) as (mx & -> & Hle). lia.
Qed.

(** The loop over the registered descriptors never erases [end()]: it
    removes keys only. It keeps the bound under the same condition. *)
Lemma handler_loop_covers (read_fd_set : gset Z) (its : list Z) (s : state) :
  ∃ s', handler_loop read_fd_set its s = Ok s'
        ∧ pipefd0 s' = pipefd0 s
        ∧ (covers s → universe_registered s → covers s' ∧ universe_registered s').
Proof.
  revert s. induction its as [| fd its IH]; intros s.
  { exists s. split; [reflexivity |]. split; [reflexivity | auto]. }
  cbn [handler_loop].
  destruct (active_sockets s !! fd) as [callback |] eqn:Hcb; [| apply IH].
  destruct (decide (fd ∉ read_fd_set)); [apply IH |].
  destruct (invoke callback fd (wld s)) as [socket_valid w] eqn:Hinv.
  destruct socket_valid; cbn [negb].
  { destruct (IH (set_wld w s)) as (s' & Hrun & Hp & Hk).
    exists s'. split; [exact Hrun |]. split; [exact Hp |]. exact Hk. }
  set (s1 := rxSock LInfo "The socket fd=%d has been closed by peer" [fd] (set_wld w s)).
  destruct (decide (fd < 0)) as [Hneg | Hpos].
  - rewrite remove_socket_unprotected_negative by exact Hneg.
    eexists. split; [reflexivity |]. split; [reflexivity |]. auto.
  - destruct (remove_socket_unprotected_present fd s1 ltac:(lia) ltac:(by eexists))
      as (s2 & Hrun & Hp & Ha & Ht & Hm & _).
    rewrite Hrun.
    assert (Hk : covers s → universe_registered s → covers s2 ∧ universe_registered s2).
    { intros Hc Hu.
      destruct (remove_socket_unprotected_covers s1 fd Hc Hu ltac:(right; by eexists))
        as (s2' & it & Hrun' & _ & _ & Hc' & Hu').
      rewrite Hrun in Hrun'. injection Hrun' as <- _. split; assumption. }
    destruct (map_next (active_sockets s1) fd).
    + destruct (IH s2) as (s3 & Hrun3 & Hp3 & Hk3).
      exists s3. split; [exact Hrun3 |]. split; [by rewrite Hp3, Hp |].
      intros Hc Hu. destruct (Hk Hc Hu). auto.
    + exists s2. split; [reflexivity |]. split; [exact Hp | exact Hk].
Qed.

(** One turn of the thread keeps the bound when it starts from a
    universe of registered descriptors. *)
Lemma run_thread_iteration_covers (n : Z) (read_fd_set : gset Z) (nrd : Z) (msg : ctrl_cmd_t)
    (s s' : state) :
  covers s → universe_registered s →
  run_thread_iteration n read_fd_set nrd msg s = Ok s' →
  covers s'.
Proof.
  intros Hc Hu. unfold run_thread_iteration.
  destruct (decide (n = -1)); [intros [= <-]; exact Hc |].
  destruct (decide (n = 0)); [intros [= <-]; exact Hc |].
  destruct (handler_loop_covers read_fd_set (keys (active_sockets s)) s)
    as (s1 & -> & Hp & Hk).
  destruct (Hk Hc Hu) as [Hc1 Hu1].
  destruct (decide (pipefd0 s1 ∈ read_fd_set)); [| intros [= <-]; exact Hc1].
  unfold handle_ctrl.
  destruct (decide (nrd ≤ 0)); [intros [= <-]; exact Hc1 |].
  destruct msg as [c fd]. cbn [cmd new_fd].
  destruct c.
  - intros [= <-]. exact Hc1.
  - destruct (new_fd_covers s1 nrd fd Hc1) as (s2 & Hrun & Hc2).
    unfold handle_ctrl in Hrun.
    destruct (decide (nrd ≤ 0)); [contradiction |].
    cbn [cmd new_fd] in Hrun. rewrite Hrun. intros [= <-]. exact Hc2.
  - destruct (remove_socket_unprotected fd s1) as [[s2 it] | what] eqn:Hrm; [| discriminate].
    intros [= <-].
    destruct (decide (fd < 0 ∨ is_Some (active_sockets s1 !! fd))) as [Hfd | Hfd].
    + destruct (remove_socket_unprotected_covers s1 fd Hc1 Hu1 Hfd)
        as (s2' & it' & Hrun' & _ & _ & Hc' & _).
      rewrite Hrm in Hrun'. injection Hrun' as <- _. exact Hc'.
    + assert (Hpos : 0 ≤ fd) by (destruct (decide (fd < 0)); [tauto | lia]).
      assert (Habs : active_sockets s1 !! fd = None).
      { destruct (active_sockets s1 !! fd) eqn:E; [| reflexivity].
        exfalso. apply Hfd. right. by eexists. }
      pose proof (remove_socket_unprotected_absent fd s1 Hpos Habs). congruence.
  - intros [= <-]. exact Hc1.
Qed.

Lemma not_covers (s : state) (fd : Z) :
  fd ∈ total_fd_set s → max_fd s < fd → ¬ covers s.
Proof. intros Hin Hlt [_ Hall]. specialize (Hall fd Hin). cbn in Hall. lia. Qed.




End Thread.

(** * Part III: more of the code *)

(** ** Ports and addresses *)

Section Ports.
Import net_utils.

(** [htons] in arithmetic: the low byte goes up, the high byte comes
    down. *)
Lemma htons_arith (x : Z) :
  htons x = (to_uint16 x mod 256) * 256 + to_uint16 x / 256.
Proof.
  unfold htons. set (h := to_uint16 x).
  assert (Hh : 0 ≤ h < 65536) by (apply Z.mod_pos_bound; lia).
  change 255 with (Z.ones 8).
  rewrite !Z.land_ones, Z.shiftl_mul_pow2, Z.shiftr_div_pow2 by lia.
  change (2 ^ 8) with 256.
  assert (Hb : (h / 256) mod 256 = h / 256).
  { apply Z.mod_small. split; [apply Z.div_pos; lia | apply Z.div_lt_upper_bound; lia]. }
  rewrite Hb.
  assert (Hdis : Z.land (h mod 256 * 256) (h / 256) = 0).
  { apply Z.bits_inj'. intros n Hn. rewrite Z.land_spec, Z.bits_0.
    destruct (decide (n < 8)) as [Hlt | Hge].
    - change 256 with (2 ^ 8). rewrite Z.mul_pow2_bits_low by lia. reflexivity.
    - assert (Hhi : Z.testbit (h / 256) n = false).
      { rewrite <- Hb. change ((h / 256) mod 256) with ((h / 256) mod 2 ^ 8).
        apply Z.mod_pow2_bits_high. lia. }
      rewrite Hhi. apply andb_false_r. }
  rewrite <- Z.lxor_lor by exact Hdis.
  symmetry. apply Z.add_nocarry_lxor. exact Hdis.
Qed.

Lemma htons_range (x : Z) : 0 ≤ htons x < 65536.
Proof.
  rewrite htons_arith.
  assert (Hh : 0 ≤ to_uint16 x < 65536) by (apply Z.mod_pos_bound; lia).
  Z.to_euclidean_division_equations. lia.
Qed.

(** [get_port] undoes the [htons] of [set_sockaddr], on 16 bits. *)
Lemma ntohs_htons (x : Z) : ntohs (htons x) = to_uint16 x.
Proof.
  unfold ntohs. rewrite (htons_arith (htons x)).
  assert (Hr := htons_range x).
  assert (Hid : to_uint16 (htons x) = htons x) by (apply Z.mod_small; lia).
  rewrite Hid, htons_arith.
  assert (Hh : 0 ≤ to_uint16 x < 65536) by (apply Z.mod_pos_bound; lia).
  Z.to_euclidean_division_equations. lia.
Qed.

End Ports.

Section MoreNetUtils.
Import net_utils.

(** X1. The port read back with [get_port] from an address that
    [set_sockaddr] has filled is the port given, on 16 bits: a port
    outside 0..65535 comes back reduced modulo 65536. *)
Theorem get_port_of_set_sockaddr (k : env) (addr : sockaddr_in) (ip_str : string) (port : Z) :
  fst (inet_pton4 k ip_str (sin_addr addr)) = 1 →
  get_port (snd (fst (run_sys (set_sockaddr k addr ip_str port)))) = to_uint16 port
  ∧ (0 ≤ port < 65536 →
     get_port (snd (fst (run_sys (set_sockaddr k addr ip_str port)))) = port).
Proof.
  intros Hconv.
  assert (H : get_port (snd (fst (run_sys (set_sockaddr k addr ip_str port))))
              = to_uint16 port).
  { unfold set_sockaddr. cbn.
    destruct (inet_pton4 k ip_str (sin_addr addr)) as [r a]. cbn in Hconv. subst r.
    destruct (decide (1 ≠ 1)) as [Hn | _]; [contradiction |].
    cbn. apply ntohs_htons. }
  split; [exact H |].
  intros Hport. rewrite H. apply Z.mod_small. lia.
Qed.

Lemma get_port_of_set_sockaddr_witness :
  get_port (snd (fst (run_sys (set_sockaddr good_host sockaddr_in_zero "127.0.0.1" 65616))))
  = to_uint16 65616
  ∧ get_port (snd (fst (run_sys (set_sockaddr good_host sockaddr_in_zero "127.0.0.1" 36412))))
    = 36412.
Proof.
  split.
  - apply (get_port_of_set_sockaddr good_host sockaddr_in_zero "127.0.0.1" 65616).
    reflexivity.
  - apply (get_port_of_set_sockaddr good_host sockaddr_in_zero "127.0.0.1" 36412).
    + reflexivity.
    + lia.
Defined.

(** X2. [connect_to] answers [true] exactly when the descriptor is not
    negative, the text converts and [connect] does not answer -1. With a
    negative descriptor or a text that does not convert it issues no call
    and leaves [*dest_sockaddr] alone; once the text converts it stores
    the address there before it connects, so a failed [connect] leaves
    the address written. *)
Theorem connect_to_result (k : env) (fd : Z) (str : string) (port : Z)
    (dest : option sockaddr_in) :
  (fd < 0 ∨ fst (inet_pton4 k str 0) ≠ 1 →
   fst (run_sys (connect_to k fd str port dest)) = (false, dest)
   ∧ calls_of (snd (run_sys (connect_to k fd str port dest))) = [])
  ∧ (0 ≤ fd → fst (inet_pton4 k str 0) = 1 →
     fst (run_sys (connect_to k fd str port dest))
     = (bool_decide
          (connect k fd (SockaddrIn AF_INET (htons port) (snd (inet_pton4 k str 0))) ≠ -1),
        (λ _, SockaddrIn AF_INET (htons port) (snd (inet_pton4 k str 0))) <$> dest)
     ∧ calls_of (snd (run_sys (connect_to k fd str port dest)))
       = [Sys_connect fd (SockaddrIn AF_INET (htons port) (snd (inet_pton4 k str 0)))]).
Proof.
  unfold connect_to, set_sockaddr. cbn.
  destruct (inet_pton4 k str 0) as [r a]. cbn.
  split.
  - intros Hbad.
    destruct (decide (fd < 0)) as [Hneg | Hpos]; [split; reflexivity |].
    destruct Hbad as [Hneg | Hr]; [lia |].
    destruct (decide (r ≠ 1)) as [_ | Hn]; [split; reflexivity | contradiction].
  - intros Hfd ->.
    destruct (decide (fd < 0)) as [Hneg | _]; [lia |].
    destruct (decide (1 ≠ 1)) as [Hn | _]; [contradiction |].
    sys_unfold. cbn.
    destruct (decide (connect k fd (SockaddrIn AF_INET (htons port) a) = -1)) as [He | Hne].
    + rewrite bool_decide_eq_false_2 by (intros H; exact (H He)).
      destruct dest; split; reflexivity.
    + rewrite bool_decide_eq_true_2 by exact Hne.
      destruct dest; split; reflexivity.
Qed.

Lemma connect_to_result_witness :
  fst (run_sys (connect_to (host 0 0 0 0 0 0 (λ _ _ len, len)) (-1) "127.0.0.1" 36412
                           (Some sockaddr_in_zero)))
  = (false, Some sockaddr_in_zero)
  ∧ fst (run_sys (connect_to (host 0 0 0 0 0 0 (λ _ _ len, len)) 3 "127.0.0.1" 36412
                             (Some sockaddr_in_zero)))
    = (true, Some (SockaddrIn 2 15502 16777343)).
Proof.
  split.
  - apply (proj1 (connect_to_result (host 0 0 0 0 0 0 (λ _ _ len, len)) (-1) "127.0.0.1"
                    36412 (Some sockaddr_in_zero))).
    left. lia.
  - refine (proj1 (proj2 (connect_to_result (host 0 0 0 0 0 0 (λ _ _ len, len)) 3
                            "127.0.0.1" 36412 (Some sockaddr_in_zero)) _ _)).
    + lia.
    + reflexivity.
Defined.

(** The trace of [open_socket], branch by branch. *)
Lemma open_socket_calls (k : env) (ip : addr_family) (st : socket_type) (p : protocol_type) :
  let fd := socket k ip st p in
  let rto_get :=
    getsockopt_rtoinfo k fd (SctpRtoinfo 0 (srto_initial (stack_rtoinfo k))
                                         (srto_max (stack_rtoinfo k))
                                         (srto_min (stack_rtoinfo k))) in
  let rto_opts := SctpRtoinfo (srto_assoc_id (snd rto_get)) (srto_initial (snd rto_get))
                              6000 (srto_min (snd rto_get)) in
  let init_get := getsockopt_initmsg k fd (stack_initmsg k) in
  let init_opts := SctpInitmsg (sinit_num_ostreams (snd init_get))
                               (sinit_max_instreams (snd init_get)) 3 5000 in
  let r := fst (run_sys (open_socket k ip st p)) in
  let cs := calls_of (snd (run_sys (open_socket k ip st p))) in
  (r = fd ∧ cs = [Sys_socket] ∧ (fd = -1 ∨ p ≠ SCTP))
  ∨ (r = -1 ∧ fd ≠ -1 ∧ p = SCTP ∧ fst rto_get < 0
     ∧ cs = [Sys_socket; Sys_setsockopt_events fd (SctpEvents 1 1 1);
             Sys_getsockopt_rtoinfo fd])
  ∨ (r = -1 ∧ fd ≠ -1 ∧ p = SCTP ∧ setsockopt_rtoinfo k fd rto_opts < 0
     ∧ cs = [Sys_socket; Sys_setsockopt_events fd (SctpEvents 1 1 1);
             Sys_getsockopt_rtoinfo fd; Sys_setsockopt_rtoinfo fd rto_opts])
  ∨ (fd ≠ -1 ∧ p = SCTP ∧ 0 ≤ fst rto_get ∧ 0 ≤ setsockopt_rtoinfo k fd rto_opts
     ∧ r = (if decide (setsockopt_initmsg k fd init_opts < 0) then -1 else fd)
     ∧ cs = [Sys_socket; Sys_setsockopt_events fd (SctpEvents 1 1 1);
             Sys_getsockopt_rtoinfo fd; Sys_setsockopt_rtoinfo fd rto_opts;
             Sys_getsockopt_initmsg fd; Sys_setsockopt_initmsg fd init_opts]).
Proof.
  intros fd rto_get rto_opts init_get init_opts r cs.
  subst r cs. unfold open_socket. fold fd.
  destruct (decide (fd = -1)) as [He | Hfd].
  { left. rewrite He. repeat split; try reflexivity. by left. }
  destruct (decide (p = SCTP)) as [Hp | Hp].
  2: { left. repeat split; try reflexivity. by right. }
  right. sys_unfold. cbn.
  destruct (decide (setsockopt_events k fd (SctpEvents 1 1 1) ≠ 0)); cbn;
    fold rto_get; destruct rto_get as [r1 o1] eqn:E1; cbn in *;
    (destruct (decide (r1 < 0)) as [H1 | H1]; cbn;
     [ left; repeat split; try reflexivity; assumption | right ]);
    fold rto_opts;
    (destruct (decide (setsockopt_rtoinfo k fd rto_opts < 0)) as [H2 | H2]; cbn;
     [ left; repeat split; try reflexivity; assumption | right ]);
    fold init_get; destruct init_get as [r2 o2] eqn:E2; cbn in *;
    destruct (decide (r2 < 0)); cbn; fold init_opts;
    destruct (decide (setsockopt_initmsg k fd init_opts < 0)); cbn;
    repeat split; try reflexivity; try assumption; lia.
Qed.

(** X3. [open_socket] never closes a descriptor. When [socket] has
    answered a descriptor and a fatal SCTP step then fails, the function
    answers -1 and the descriptor it opened stays open, known to no one. *)
Theorem open_socket_never_closes (k : env) (ip : addr_family) (st : socket_type)
    (p : protocol_type) :
  Forall (λ c, ∀ fd, c ≠ Sys_close fd)
         (calls_of (snd (run_sys (open_socket k ip st p))))
  ∧ (socket k ip st p ≠ -1 →
     fst (run_sys (open_socket k ip st p)) = -1 →
     head (calls_of (snd (run_sys (open_socket k ip st p)))) = Some Sys_socket
     ∧ p = SCTP).
Proof.
  pose proof (open_socket_calls k ip st p) as H. cbn zeta in H.
  split.
  - destruct H as [(_ & -> & _) | [(_ & _ & _ & _ & ->) | [(_ & _ & _ & _ & ->)
                  | (_ & _ & _ & _ & _ & ->)]]];
      repeat constructor; discriminate.
  - intros Hfd Hr.
    destruct H as [(Hr' & -> & Hor) | [(_ & _ & -> & _ & ->) | [(_ & _ & -> & _ & ->)
                  | (_ & -> & _ & _ & _ & ->)]]]; try (split; reflexivity).
    split; [reflexivity |].
    destruct Hor as [He | Hp]; [contradiction |]. congruence.
Qed.

Lemma open_socket_never_closes_witness :
  socket (host 0 0 (-1) 0 0 0 (λ _ _ len, len)) ipv4 seqpacket SCTP ≠ -1
  ∧ fst (run_sys (open_socket (host 0 0 (-1) 0 0 0 (λ _ _ len, len)) ipv4 seqpacket SCTP))
    = -1
  ∧ head (calls_of (snd (run_sys (open_socket (host 0 0 (-1) 0 0 0 (λ _ _ len, len))
                                               ipv4 seqpacket SCTP))))
    = Some Sys_socket.
Proof.
  split; [vm_compute; discriminate |].
  split; [reflexivity |].
  apply (proj2 (open_socket_never_closes (host 0 0 (-1) 0 0 0 (λ _ _ len, len))
                  ipv4 seqpacket SCTP)).
  - vm_compute. discriminate.
  - reflexivity.
Defined.

End MoreNetUtils.

(** ** Traces compose *)

Section Appends.

Lemma appends_ret {A} (a : A) : appends (mret a).
Proof. intros t. cbn. by rewrite app_nil_r. Qed.

Lemma appends_emit (e : event) : appends (emit e).
Proof. intros t. reflexivity. Qed.

Lemma appends_bind {A B} (m : Sys A) (f : A → Sys B) :
  appends m → (∀ a, appends (f a)) → appends (m ≫= f).
Proof.
  intros Hm Hf t. unfold mbind, sys_bind.
  rewrite (Hm t). destruct (m []) as [a t1]. cbn.
  rewrite (Hf a (t ++ t1)), (Hf a t1). cbn. by rewrite app_assoc.
Qed.

Lemma appends_run {A} (m : Sys A) (t : list event) :
  appends m → m t = (fst (run_sys m), t ++ snd (run_sys m)).
Proof. intros H. apply H. Qed.

End Appends.

Ltac appends_step :=
  first
    [ apply appends_ret
    | apply appends_emit
    | apply appends_bind; [| intros ? ]
    | match goal with
      | |- appends (if ?c then _ else _) => destruct c
      | |- appends (match ?x with _ => _ end) => destruct x
      | |- appends (let '(_, _) := ?x in _) => destruct x
      end ].

Ltac solve_appends := unfold call, logf; repeat appends_step.

Section AppendsOfTheCode.

Lemma set_sockaddr_appends k a s p : appends (net_utils.set_sockaddr k a s p).
Proof. unfold net_utils.set_sockaddr. solve_appends. Qed.

Lemma net_open_socket_appends k ip st p : appends (net_utils.open_socket k ip st p).
Proof. unfold net_utils.open_socket. solve_appends. Qed.

Lemma net_bind_addr_appends k fd a : appends (net_utils.bind_addr k fd a).
Proof. unfold net_utils.bind_addr. solve_appends. Qed.

Lemma bind_addr_text_appends k fd s p r : appends (net_utils.bind_addr_text k fd s p r).
Proof.
  unfold net_utils.bind_addr_text.
  apply appends_bind; [apply set_sockaddr_appends |].
  intros [ok a]. destruct ok; cbn [negb].
  - apply appends_bind; [apply net_bind_addr_appends |]. intros _. apply appends_ret.
  - solve_appends.
Qed.

Lemma close_appends s : appends (socket_handler.close s).
Proof. unfold socket_handler.close. solve_appends. Qed.

Lemma reset_appends s : appends (socket_handler.reset s).
Proof.
  unfold socket_handler.reset.
  apply appends_bind; [apply close_appends |]. intros ?. apply appends_ret.
Qed.

Lemma handler_open_socket_appends k s ip st p :
  appends (socket_handler.open_socket k s ip st p).
Proof.
  unfold socket_handler.open_socket.
  destruct (decide _); [solve_appends |].
  apply appends_bind; [apply net_open_socket_appends |]. intros ?. apply appends_ret.
Qed.

Lemma handler_bind_addr_appends k s str p : appends (socket_handler.bind_addr k s str p).
Proof.
  unfold socket_handler.bind_addr.
  apply appends_bind; [apply bind_addr_text_appends |]. intros [ok a]. apply appends_ret.
Qed.

End AppendsOfTheCode.

(** ** Socket handle: opening, binding, closing *)

Section MoreSocketHandle.
Import socket_handler.

Lemma run_bind {A B} (m : Sys A) (f : A → Sys B) :
  (∀ a, appends (f a)) →
  run_sys (m ≫= f)
  = (fst (run_sys (f (fst (run_sys m)))),
     snd (run_sys m) ++ snd (run_sys (f (fst (run_sys m))))).
Proof.
  intros Hf. unfold run_sys, mbind, sys_bind.
  destruct (m []) as [a t]. cbn. apply Hf.
Qed.

Lemma calls_of_app (t t' : list event) : calls_of (t ++ t') = calls_of t ++ calls_of t'.
Proof. unfold calls_of. apply omap_app. Qed.

(** X5. [close()] closes the descriptor the handle holds, once: a
    second [close()], a [reset()] or the destructor after it issue no
    call. A handle with a negative descriptor closes nothing. *)
Theorem close_once (s : socket_handler_t) :
  calls_of (snd (run_sys (close s)))
  = (if decide (0 ≤ sockfd s) then [Sys_close (sockfd s)] else [])
  ∧ sockfd (fst (run_sys (close s))) < 0
  ∧ run_sys (close (fst (run_sys (close s)))) = (fst (run_sys (close s)), [])
  ∧ snd (run_sys (reset (fst (run_sys (close s))))) = []
  ∧ snd (run_sys (destroy (fst (run_sys (reset s))))) = [].
Proof.
  destruct s as [fd a]. unfold reset, destroy, close, run_sys. cbn.
  destruct (decide (0 ≤ fd)) as [Hfd | Hfd]; cbn.
  - repeat split; first [reflexivity | lia].
  - repeat first
      [ progress cbn
      | progress sys_unfold
      | progress unfold reset, close
      | match goal with
        | |- context [decide (0 ≤ fd)] => destruct (decide (0 ≤ fd)); [contradiction |]
        end ].
    repeat split; first [reflexivity | lia].
Qed.

Lemma handler_open_socket_run (k : env) (s : socket_handler_t) (ip : addr_family)
    (st : socket_type) (p : protocol_type) :
  sockfd s < 0 →
  run_sys (open_socket k s ip st p)
  = ((bool_decide (0 ≤ fst (run_sys (net_utils.open_socket k ip st p))),
      SocketHandler (fst (run_sys (net_utils.open_socket k ip st p))) (addr s)),
     snd (run_sys (net_utils.open_socket k ip st p))).
Proof.
  intros Hs. unfold open_socket.
  destruct (decide (0 ≤ sockfd s)) as [Hn | _]; [lia |].
  rewrite run_bind by (intros ?; apply appends_ret).
  cbn. by rewrite app_nil_r.
Qed.

(** X6. [open_socket] on a handle that holds a descriptor is refused
    with no call and the handle as it was. On a handle without one, the
    handle takes what [net_utils::open_socket] answers, and a [reset()]
    after a successful open closes that very descriptor and leaves the
    handle at -1 with a zero address. *)
Theorem open_then_reset (k : env) (s : socket_handler_t) (ip : addr_family)
    (st : socket_type) (p : protocol_type) :
  (0 ≤ sockfd s →
   fst (run_sys (open_socket k s ip st p)) = (false, s)
   ∧ calls_of (snd (run_sys (open_socket k s ip st p))) = [])
  ∧ (sockfd s < 0 →
     0 ≤ fst (run_sys (net_utils.open_socket k ip st p)) →
     fst (run_sys (open_socket k s ip st p))
     = (true, SocketHandler (fst (run_sys (net_utils.open_socket k ip st p))) (addr s))
     ∧ run_sys ('(_, s') ← open_socket k s ip st p; reset s')
       = (SocketHandler (-1) sockaddr_in_zero,
          snd (run_sys (net_utils.open_socket k ip st p))
          ++ [Call (Sys_close (fst (run_sys (net_utils.open_socket k ip st p))))])).
Proof.
  split.
  - intros Hopen. unfold open_socket.
    destruct (decide (0 ≤ sockfd s)) as [_ | Hn]; [| contradiction].
    split; reflexivity.
  - intros Hs Hfd.
    rewrite run_bind by (intros [? ?]; apply reset_appends).
    rewrite (handler_open_socket_run k s ip st p Hs).
    rewrite bool_decide_eq_true_2 by exact Hfd. cbn [fst snd].
    split; [reflexivity |].
    unfold reset, close, run_sys. cbn.
    destruct (decide _) as [_ | Hn]; [| contradiction].
    reflexivity.
Qed.

Lemma open_then_reset_witness :
  fst (run_sys (open_socket good_host (SocketHandler 7 sockaddr_in_zero) ipv4 stream TCP))
  = (false, SocketHandler 7 sockaddr_in_zero)
  ∧ run_sys ('(_, s') ← open_socket good_host empty ipv4 stream TCP; reset s')
    = (SocketHandler (-1) sockaddr_in_zero, [Call Sys_socket; Call (Sys_close 3)]).
Proof.
  split.
  - apply (proj1 (open_then_reset good_host (SocketHandler 7 sockaddr_in_zero)
                    ipv4 stream TCP)).
    cbn. lia.
  - apply (proj2 (open_then_reset good_host empty ipv4 stream TCP)).
    + cbn. lia.
    + vm_compute. discriminate.
Defined.

Lemma handler_bind_addr_run (k : env) (s : socket_handler_t) (str : string) (port : Z) :
  (fst (inet_pton4 k str 0) ≠ 1 →
   fst (run_sys (bind_addr k s str port)) = (false, s)
   ∧ calls_of (snd (run_sys (bind_addr k s str port))) = [])
  ∧ (fst (inet_pton4 k str 0) = 1 →
     fst (run_sys (bind_addr k s str port))
     = (true, SocketHandler (sockfd s)
                            (SockaddrIn AF_INET (htons port) (snd (inet_pton4 k str 0))))
     ∧ calls_of (snd (run_sys (bind_addr k s str port)))
       = (if decide (sockfd s < 0) then []
          else [Sys_bind (sockfd s)
                         (SockaddrIn AF_INET (htons port) (snd (inet_pton4 k str 0)))])).
Proof.
  unfold bind_addr, net_utils.bind_addr_text, net_utils.set_sockaddr, net_utils.bind_addr.
  cbn. destruct (inet_pton4 k str 0) as [r a]. cbn.
  split.
  - intros Hr. destruct (decide (r ≠ 1)) as [_ | Hn]; [| contradiction].
    destruct s. split; reflexivity.
  - intros ->. destruct (decide (1 ≠ 1)) as [Hn | _]; [contradiction |].
    sys_unfold. cbn.
    destruct (decide (sockfd s < 0)); cbn; [split; reflexivity |].
    destruct (decide _); split; reflexivity.
Qed.

Lemma sctp_init_socket_appends k s st str p : appends (sctp_init_socket k s st str p).
Proof.
  unfold sctp_init_socket.
  apply appends_bind; [apply handler_open_socket_appends |].
  intros [ok s1]. destruct ok; cbn [negb]; [| apply appends_ret].
  apply appends_bind; [apply handler_bind_addr_appends |].
  intros [ok s2]. destruct ok; cbn [negb]; [apply appends_ret |].
  apply appends_bind; [apply reset_appends |]. intros ?. apply appends_ret.
Qed.

(** X7. [sctp_init_socket] on a handle without a descriptor. When the
    open fails, nothing else is tried. When the bind address does not
    convert, the descriptor just opened is closed and the handle is back
    at -1 with a zero address. When it converts, the result is [true]
    with the handle holding descriptor and address, and [bind] has been
    called once on them, whatever it answered. *)
Theorem sctp_init_socket_result (k : env) (s : socket_handler_t) (socktype : socket_type)
    (str : string) (port : Z) :
  sockfd s < 0 →
  (fst (run_sys (net_utils.open_socket k ipv4 socktype SCTP)) < 0 →
   run_sys (sctp_init_socket k s socktype str port)
   = ((false, SocketHandler (fst (run_sys (net_utils.open_socket k ipv4 socktype SCTP)))
                            (addr s)),
      snd (run_sys (net_utils.open_socket k ipv4 socktype SCTP))))
  ∧ (0 ≤ fst (run_sys (net_utils.open_socket k ipv4 socktype SCTP)) →
     fst (inet_pton4 k str 0) ≠ 1 →
     fst (run_sys (sctp_init_socket k s socktype str port))
     = (false, SocketHandler (-1) sockaddr_in_zero)
     ∧ calls_of (snd (run_sys (sctp_init_socket k s socktype str port)))
       = calls_of (snd (run_sys (net_utils.open_socket k ipv4 socktype SCTP)))
         ++ [Sys_close (fst (run_sys (net_utils.open_socket k ipv4 socktype SCTP)))])
  ∧ (0 ≤ fst (run_sys (net_utils.open_socket k ipv4 socktype SCTP)) →
     fst (inet_pton4 k str 0) = 1 →
     fst (run_sys (sctp_init_socket k s socktype str port))
     = (true, SocketHandler (fst (run_sys (net_utils.open_socket k ipv4 socktype SCTP)))
                            (SockaddrIn AF_INET (htons port) (snd (inet_pton4 k str 0))))
     ∧ calls_of (snd (run_sys (sctp_init_socket k s socktype str port)))
       = calls_of (snd (run_sys (net_utils.open_socket k ipv4 socktype SCTP)))
         ++ [Sys_bind (fst (run_sys (net_utils.open_socket k ipv4 socktype SCTP)))
                      (SockaddrIn AF_INET (htons port) (snd (inet_pton4 k str 0)))]).
Proof.
  intros Hs.
  set (fd := fst (run_sys (net_utils.open_socket k ipv4 socktype SCTP))).
  set (t0 := snd (run_sys (net_utils.open_socket k ipv4 socktype SCTP))).
  assert (Hrun : ∀ f : bool * socket_handler_t → Sys (bool * socket_handler_t),
             (∀ a, appends (f a)) →
             run_sys (open_socket k s ipv4 socktype SCTP ≫= f)
             = (fst (run_sys (f (bool_decide (0 ≤ fd), SocketHandler fd (addr s)))),
                t0 ++ snd (run_sys (f (bool_decide (0 ≤ fd), SocketHandler fd (addr s)))))).
  { intros f Hf. rewrite run_bind by exact Hf.
    rewrite (handler_open_socket_run k s ipv4 socktype SCTP Hs). reflexivity. }
  unfold sctp_init_socket.
  rewrite Hrun.
  2: { intros [ok s1]. destruct ok; cbn [negb]; [| apply appends_ret].
       apply appends_bind; [apply handler_bind_addr_appends |].
       intros [ok s2]. destruct ok; cbn [negb]; [apply appends_ret |].
       apply appends_bind; [apply reset_appends |]. intros ?. apply appends_ret. }
  split; [| split].
  - intros Hfd. rewrite bool_decide_eq_false_2 by lia. cbn. by rewrite app_nil_r.
  - intros Hfd Hconv. rewrite bool_decide_eq_true_2 by exact Hfd. cbn [negb].
    rewrite run_bind.
    2: { intros [ok s2]. destruct ok; cbn [negb]; [apply appends_ret |].
         apply appends_bind; [apply reset_appends |]. intros ?. apply appends_ret. }
    destruct (proj1 (handler_bind_addr_run k (SocketHandler fd (addr s)) str port) Hconv)
      as [Hb Hc].
    rewrite Hb. cbn [fst snd negb].
    rewrite !calls_of_app, Hc.
    unfold reset, close, run_sys. cbn.
    destruct (decide (0 ≤ fd)) as [_ | Hn]; [| contradiction].
    split; reflexivity.
  - intros Hfd Hconv. rewrite bool_decide_eq_true_2 by exact Hfd. cbn [negb].
    rewrite run_bind.
    2: { intros [ok s2]. destruct ok; cbn [negb]; [apply appends_ret |].
         apply appends_bind; [apply reset_appends |]. intros ?. apply appends_ret. }
    destruct (proj2 (handler_bind_addr_run k (SocketHandler fd (addr s)) str port) Hconv)
      as [Hb Hc].
    rewrite Hb. cbn [fst snd negb].
    rewrite !calls_of_app, Hc. cbn.
    destruct (decide (fd < 0)) as [Hn | _]; [lia |].
    split; [reflexivity |]. by rewrite app_nil_r.
Qed.

Lemma sctp_init_socket_result_witness :
  fst (run_sys (sctp_init_socket good_host empty seqpacket "nowhere" 36412))
  = (false, SocketHandler (-1) sockaddr_in_zero)
  ∧ fst (run_sys (sctp_init_socket good_host empty seqpacket "127.0.0.1" 36412))
    = (true, SocketHandler 3 (SockaddrIn 2 15502 16777343)).
Proof.
  split.
  - apply (proj1 (proj2 (sctp_init_socket_result good_host empty seqpacket "nowhere" 36412
                           ltac:(cbn; lia)))).
    + vm_compute. discriminate.
    + vm_compute. discriminate.
  - refine (proj1 (proj2 (proj2 (sctp_init_socket_result good_host empty seqpacket
                                   "127.0.0.1" 36412 ltac:(cbn; lia))) _ _)).
    + vm_compute. discriminate.
    + reflexivity.
Defined.

(** X8. [tcp_make_server] on a handle without a descriptor, with a
    socket that opens and an address that converts: the calls are
    [socket], [bind], [listen], in this order; the result is what [listen]
    says, and when [listen] fails the handle keeps the open descriptor:
    nothing is closed. *)
Theorem tcp_make_server_result (k : env) (s : socket_handler_t) (str : string)
    (port nof_connections : Z) :
  sockfd s < 0 →
  0 ≤ socket k ipv4 stream TCP →
  fst (inet_pton4 k str 0) = 1 →
  fst (run_sys (tcp_make_server k s str port nof_connections))
  = (bool_decide (listen k (socket k ipv4 stream TCP) nof_connections = 0),
     SocketHandler (socket k ipv4 stream TCP)
                   (SockaddrIn AF_INET (htons port) (snd (inet_pton4 k str 0))))
  ∧ calls_of (snd (run_sys (tcp_make_server k s str port nof_connections)))
    = [Sys_socket;
       Sys_bind (socket k ipv4 stream TCP)
                (SockaddrIn AF_INET (htons port) (snd (inet_pton4 k str 0)));
       Sys_listen (socket k ipv4 stream TCP) nof_connections].
Proof.
  intros Hs Hfd Hconv.
  set (fd := socket k ipv4 stream TCP) in *.
  destruct (inet_pton4 k str 0) as [r a] eqn:E. cbn in Hconv. subst r. cbn [snd].
  unfold tcp_make_server, open_socket, net_utils.open_socket, bind_addr,
    net_utils.bind_addr_text, net_utils.set_sockaddr, net_utils.bind_addr.
  fold fd.
  destruct (decide (0 ≤ sockfd s)) as [Hn | _]; [lia |].
  destruct (decide (fd = -1)) as [Hn | _]; [lia |].
  destruct (decide (TCP = SCTP)) as [Hn | _]; [discriminate |].
  sys_unfold. cbn. rewrite E.
  rewrite bool_decide_eq_true_2 by exact Hfd. cbn.
  destruct (decide (1 ≠ 1)) as [Hn | _]; [contradiction |]. cbn.
  destruct (decide (fd < 0)) as [Hn | _]; [lia |]. cbn.
  destruct (decide (bind k fd (SockaddrIn AF_INET (htons port) a) ≠ 0)); cbn;
    (destruct (decide (listen k fd nof_connections ≠ 0)) as [Hl | Hl]; cbn;
     [ rewrite bool_decide_eq_false_2 by exact Hl; split; reflexivity
     | rewrite bool_decide_eq_true_2 by (destruct (decide (listen k fd nof_connections = 0));
                                         [assumption | contradiction]);
       split; reflexivity ]).
Qed.

Lemma tcp_make_server_result_witness :
  fst (run_sys (tcp_make_server
                  (Env inet_pton4_loopback (λ _ dst, (0, dst)) (λ _ _ _, 3)
                       (λ _ _, 0) (λ _ o, (0, o)) (λ _ _, 0) (λ _ o, (0, o)) (λ _ _, 0)
                       (SctpRtoinfo 0 0 0 0) (SctpInitmsg 0 0 0 0)
                       (λ _ _, 0) (λ _ _, 0) (λ _ _, -1) (λ _ _ len, len))
                  empty "127.0.0.1" 8080 4))
  = (false, SocketHandler 3 (SockaddrIn 2 (htons 8080) 16777343)).
Proof.
  apply (tcp_make_server_result
           (Env inet_pton4_loopback (λ _ dst, (0, dst)) (λ _ _ _, 3)
                (λ _ _, 0) (λ _ o, (0, o)) (λ _ _, 0) (λ _ o, (0, o)) (λ _ _, 0)
                (SctpRtoinfo 0 0 0 0) (SctpInitmsg 0 0 0 0)
                (λ _ _, 0) (λ _ _, 0) (λ _ _, -1) (λ _ _ len, len))
           empty "127.0.0.1" 8080 4).
  - cbn. lia.
  - cbn. lia.
  - reflexivity.
Defined.

End MoreSocketHandle.

(** ** SCTP options, [tcp_read], [tcp_send] at its edges *)

Section MoreTcp.
Import net_utils net_utils_tcp.



(** X9. [tcp_read] returns what [read] answered; it closes the
    descriptor when, and only when, that is 0 (the peer has closed); on
    an error (-1) the descriptor stays open. *)
Theorem tcp_read_closes_on_eof (read_ret remotefd : Z) :
  -1 ≤ read_ret ≤ INT_MAX →
  fst (run_sys (tcp_read read_ret remotefd)) = read_ret
  ∧ calls_of (snd (run_sys (tcp_read read_ret remotefd)))
    = (if decide (read_ret = 0) then [Sys_close remotefd] else []).
Proof.
  intros Hr. unfold INT_MAX in Hr. unfold tcp_read.
  rewrite to_int_id by lia.
  destruct (decide (read_ret = 0)) as [-> | Hne]; [split; reflexivity |].
  destruct (decide (read_ret = -1)); split; reflexivity.
Qed.

Lemma tcp_read_closes_on_eof_witness :
  calls_of (snd (run_sys (tcp_read 0 9))) = [Sys_close 9]
  ∧ calls_of (snd (run_sys (tcp_read (-1) 9))) = [].
Proof.
  split.
  - apply (tcp_read_closes_on_eof 0 9). unfold INT_MAX. lia.
  - apply (tcp_read_closes_on_eof (-1) 9). unfold INT_MAX. lia.
Defined.

(** X10. [tcp_send] with nothing to send, or with a byte count of 2^63
    or more (negative once in the signed counter), calls [send] not once
    and returns 0. *)
Theorem tcp_send_nothing (k : env) (fd nbytes : Z) :
  nbytes = 0 ∨ 2 ^ 63 ≤ nbytes < 2 ^ 64 →
  run_sys (tcp_send k fd nbytes) = (Some 0, []).
Proof.
  intros Hn. unfold tcp_send, run_sys.
  assert (Hrem : to_ssize_t nbytes = 0 ∧ nbytes = 0
                 ∨ to_ssize_t nbytes = nbytes - 2 ^ 64 ∧ 2 ^ 63 ≤ nbytes < 2 ^ 64).
  { destruct Hn as [-> | Hn]; [left; split; reflexivity | right].
    split; [| exact Hn].
    unfold to_ssize_t, wrap_signed.
    replace (nbytes + 2 ^ (64 - 1)) with ((nbytes - 2 ^ 63) + 1 * 2 ^ 64) by lia.
    rewrite Z.mod_add by lia. rewrite Z.mod_small by lia. lia. }
  unfold mbind, sys_bind. cbn [tcp_send_loop].
  destruct (decide (to_ssize_t nbytes > 0)) as [Hpos | _].
  { destruct Hrem as [[E _] | [E Hr]]; rewrite E in Hpos; lia. }
  cbn. do 2 f_equal.
  destruct Hrem as [[E ->] | [E Hr]]; rewrite E; [reflexivity |].
  replace (nbytes - (nbytes - 2 ^ 64)) with (2 ^ 64) by lia. reflexivity.
Qed.

Lemma tcp_send_nothing_witness :
  run_sys (tcp_send good_host 7 (2 ^ 63)) = (Some 0, []).
Proof. apply tcp_send_nothing. right. lia. Defined.

(** X11. When every [send] makes progress, all the bytes go out and the
    result is the byte count as an [int]: for a count above [INT_MAX] the
    result is wrapped, and can be negative. *)
Theorem tcp_send_all_sent (k : env) (fd nbytes : Z) :
  0 ≤ nbytes < 2 ^ 63 →
  (∀ off len, 0 < len → 1 ≤ send k fd off len ≤ len) →
  ∃ t, run_sys (tcp_send k fd nbytes) = (Some (to_int nbytes), t)
       ∧ bytes_sent k t = nbytes
       ∧ Forall (λ e, ∃ off len, e = Call (Sys_send fd off len)) t.
Proof.
  intros Hn Hsend.
  unfold tcp_send, run_sys. rewrite to_ssize_t_id by lia.
  assert (Hloop : ∀ fuel ptr rem t,
             0 ≤ rem < 2 ^ 63 → (Z.to_nat rem < fuel)%nat →
             Forall (λ e, ∃ off len, e = Call (Sys_send fd off len)) t →
             ∃ t', tcp_send_loop k fd fuel ptr rem t = (Some (inr 0), t')
                   ∧ bytes_sent k t' = bytes_sent k t + rem
                   ∧ Forall (λ e, ∃ off len, e = Call (Sys_send fd off len)) t').
  { induction fuel as [| fuel IH]; intros ptr rem t Hrem Hfuel Ht; [lia |].
    cbn [tcp_send_loop].
    destruct (decide (rem > 0)) as [Hpos | Hzero].
    - sys_unfold. cbn.
      pose proof (Hsend ptr rem ltac:(lia)) as Hs.
      rewrite to_ssize_t_id by lia.
      destruct (decide (send k fd ptr rem < 1)) as [Hfail | _]; [lia |].
      rewrite to_ssize_t_id by lia.
      destruct (IH (ptr + send k fd ptr rem) (rem - send k fd ptr rem)
                   (t ++ [Call (Sys_send fd ptr rem)])) as (t' & Hrun & Hb & Hall).
      + lia.
      + lia.
      + apply Forall_app. split; [exact Ht |]. repeat constructor. by eexists _, _.
      + exists t'. split; [exact Hrun |]. split; [| exact Hall].
        rewrite Hb, bytes_sent_app. cbn. rewrite to_ssize_t_id by lia. lia.
    - exists t. assert (rem = 0) as -> by lia.
      split; [reflexivity |]. split; [lia | exact Ht]. }
  destruct (Hloop (S (Z.to_nat nbytes)) 0 nbytes []) as (t' & Hrun & Hb & Hall);
    [lia | lia | constructor |].
  unfold mbind, sys_bind. rewrite Hrun.
  exists t'. split; [| split; [cbn in Hb; lia | exact Hall]].
  unfold mret, sys_ret. do 3 f_equal.
  rewrite Z.sub_0_r. apply to_size_t_id. lia.
Qed.

Lemma tcp_send_all_sent_witness :
  ∃ t, run_sys (tcp_send good_host 7 (2 ^ 31)) = (Some (to_int (2 ^ 31)), t)
       ∧ bytes_sent good_host t = 2 ^ 31
       ∧ Forall (λ e, ∃ off len, e = Call (Sys_send 7 off len)) t.
Proof.
  apply (tcp_send_all_sent good_host 7 (2 ^ 31)).
  - lia.
  - intros off len Hlen. cbn. lia.
Defined.

Lemma to_int_above_INT_MAX : to_int (2 ^ 31) = - 2 ^ 31.
Proof. reflexivity. Qed.

End MoreTcp.

(** ** The SCTP task, and what the loop does with the two tasks *)

Section MoreTasks.
Import rx_tasks rx_multisocket_handler rx_lifecycle.

(** X12. The SCTP task hands every message [sctp_recvmsg] gives it to
    the callback, once, in a buffer from the pool, with the source
    address, the association data and the flags as received, whatever the
    flags say (data or notification, empty or not); and it answers [true]
    in every case: it never asks for the descriptor to be removed. *)
Theorem sctp_recvmsg_pdu_task_delivers (func : nat) (fd : Z) (w : world) :
  fst (sctp_recvmsg_pdu_task_call func fd w) = true
  ∧ (∀ (b : byte_buffer_t) (p : list (option byte_buffer_t)) (a : rx_answer)
       (q : list rx_answer),
        pool w = Some b :: p →
        rx w !! fd = Some (a :: q) →
        0 ≤ n_recv a ≤ get_tailroom b →
        sctp_recvmsg_pdu_task_call func fd w
        = (true,
           World p (<[fd := q]> (rx w))
                 (delivered w ++ [sctp_recv_callback func
                                    (ByteBuffer (buffer_size b) (headroom b) (rx_data a)
                                                (n_recv a))
                                    (rx_from a) (rx_sri a) (rx_flags a)])
                 (task_log w))).
Proof.
  split.
  - unfold sctp_recvmsg_pdu_task_call.
    destruct (make_byte_buffer w) as [[pdu |] w1]; [| reflexivity].
    destruct (receive fd w1) as [a w2].
    repeat (destruct (decide _)); reflexivity.
  - intros b p a q Hpool Hrx Hrange.
    unfold sctp_recvmsg_pdu_task_call, make_byte_buffer, receive.
    rewrite Hpool. cbn. rewrite Hrx. cbn.
    destruct (decide (n_recv a = -1 ∧ rx_errno a ≠ EAGAIN)) as [[H1 _] | _]; [lia |].
    destruct (decide (n_recv a = -1 ∧ rx_errno a = EAGAIN)) as [[H1 _] | _]; [lia |].
    assert (Hu : to_uint32 (n_recv a) = n_recv a).
    { apply to_uint32_id. unfold get_tailroom, to_uint32, wrap_unsigned in Hrange.
      pose proof (Z.mod_pos_bound (buffer_size b - headroom b - N_bytes b) (2 ^ 32)
                    ltac:(lia)).
      lia. }
    rewrite Hu. reflexivity.
Qed.

Lemma sctp_recvmsg_pdu_task_delivers_witness :
  sctp_recvmsg_pdu_task_call 2 5
    (World [Some (ByteBuffer 12756 1020 [] 0)]
           {[5 := [RxAnswer 0 0 [] (SockaddrIn 2 15502 16777343)
                            (SctpSndrcvinfo 1 7 60 9) 32768]]} [] [])
  = (true,
     World [] (<[5 := []]> {[5 := [RxAnswer 0 0 [] (SockaddrIn 2 15502 16777343)
                                            (SctpSndrcvinfo 1 7 60 9) 32768]]})
           [sctp_recv_callback 2 (ByteBuffer 12756 1020 [] 0)
                               (SockaddrIn 2 15502 16777343) (SctpSndrcvinfo 1 7 60 9) 32768]
           []).
Proof.
  pose proof (proj2 (sctp_recvmsg_pdu_task_delivers 2 5
                  (World [Some (ByteBuffer 12756 1020 [] 0)]
                         {[5 := [RxAnswer 0 0 [] (SockaddrIn 2 15502 16777343)
                                          (SctpSndrcvinfo 1 7 60 9) 32768]]} [] []))
               (ByteBuffer 12756 1020 [] 0) []
               (RxAnswer 0 0 [] (SockaddrIn 2 15502 16777343) (SctpSndrcvinfo 1 7 60 9) 32768)
               [] eq_refl eq_refl ltac:(vm_compute; split; discriminate)) as H.
  rewrite H. reflexivity.
Defined.

(** A task of this file answers [true] and touches the receive queue of
    its own descriptor only. *)
Lemma builtin_invoke (t : recv_task) (fd : Z) (w : world) :
  is_builtin t →
  fst (invoke t fd w) = true
  ∧ ∀ fd', fd' ≠ fd → rx (snd (invoke t fd w)) !! fd' = rx w !! fd'.
Proof.
  intros Hb.
  assert (Hrecv : ∀ w0 fd', fd' ≠ fd → rx (snd (receive fd w0)) !! fd' = rx w0 !! fd').
  { intros w0 fd' Hne. unfold receive.
    destruct (rx w0 !! fd) as [[| a q] |]; cbn; try reflexivity.
    by rewrite lookup_insert_ne. }
  destruct t as [func | func | run]; [| | contradiction]; cbn [invoke];
    unfold recvfrom_pdu_task_call, sctp_recvmsg_pdu_task_call, make_byte_buffer;
    (destruct (pool w) as [| [b |] p] eqn:Hp; cbn;
     [ split; [reflexivity | intros; reflexivity]
     | | split; [reflexivity | intros; reflexivity] ]);
    pose proof (Hrecv (World p (rx w) (delivered w) (task_log w))) as Hr;
    destruct (receive fd (World p (rx w) (delivered w) (task_log w))) as [a w2];
    cbn in Hr;
    repeat (destruct (decide _)); cbn; (split; [reflexivity | exact Hr]).
Qed.

(** The loop over tasks of this file. *)
Lemma handler_loop_builtin (read_fd_set : gset Z) (its : list Z) (s : state) :
  map_Forall (λ _ t, is_builtin t) (active_sockets s) →
  ∃ w, handler_loop read_fd_set its s = Ok (set_wld w s)
       ∧ ∀ fd, fd ∉ read_fd_set ∨ active_sockets s !! fd = None →
               rx w !! fd = rx (wld s) !! fd.
Proof.
  intros Hall. revert s Hall.
  induction its as [| fd its IH]; intros s Hall.
  { exists (wld s). destruct s. split; [reflexivity | auto]. }
  cbn [handler_loop].
  destruct (active_sockets s !! fd) as [callback |] eqn:Hcb; [| apply IH, Hall].
  destruct (decide (fd ∉ read_fd_set)) as [Hout | Hin]; [apply IH, Hall |].
  destruct (builtin_invoke callback fd (wld s) (Hall fd callback Hcb)) as [Hv Hrx].
  destruct (invoke callback fd (wld s)) as [valid w1]. cbn in Hv, Hrx. subst valid.
  cbn [negb].
  destruct (IH (set_wld w1 s) Hall) as (w2 & Hrun & Hframe).
  exists w2. split; [rewrite Hrun; reflexivity |].
  intros fd' Hfd'. rewrite Hframe by exact Hfd'. cbn.
  apply Hrx. intros ->. destruct Hfd' as [Hout | Hnone]; [contradiction | congruence].
Qed.



End MoreTasks.

(** ** What a turn of the thread can change *)

Section TurnFrame.
Import rx_tasks rx_multisocket_handler rx_lifecycle.

Ltac frame_solve :=
  repeat split;
  first
    [ assumption
    | reflexivity
    | congruence
    | apply union_subseteq_r'; first [assumption | reflexivity | etrans; eassumption]
    | etrans; eassumption
    | intros _; split; reflexivity ].

Lemma remove_socket_unprotected_shrinks (fd : Z) (s s' : state) (it : option Z) :
  remove_socket_unprotected fd s = Ok (s', it) →
  pipefd0 s' = pipefd0 s ∧ pipefd1 s' = pipefd1 s ∧ running s' = running s
  ∧ active_sockets s' ⊆ active_sockets s
  ∧ total_fd_set s' ⊆ total_fd_set s.
Proof.
  unfold remove_socket_unprotected.
  destruct (decide (fd < 0)).
  { intros [= <- _]. repeat split; reflexivity. }
  destruct (map_erase _ _) as [[m it'] | what] eqn:He; [| discriminate].
  intros [= <- _]. cbn.
  unfold map_erase, map_find in He.
  destruct (active_sockets s !! fd); [| discriminate].
  injection He as <- _.
  repeat split; [apply delete_subseteq |].
  intros x Hx. apply elem_of_difference in Hx. tauto.
Qed.

Lemma handler_loop_shrinks (read_fd_set : gset Z) (its : list Z) (s : state) :
  ∃ s', handler_loop read_fd_set its s = Ok s'
        ∧ pipefd0 s' = pipefd0 s ∧ pipefd1 s' = pipefd1 s ∧ running s' = running s
        ∧ active_sockets s' ⊆ active_sockets s
        ∧ total_fd_set s' ⊆ total_fd_set s.
Proof.
  revert s. induction its as [| fd its IH]; intros s.
  { exists s. repeat split; reflexivity. }
  cbn [handler_loop].
  destruct (active_sockets s !! fd) as [callback |] eqn:Hcb; [| apply IH].
  destruct (decide (fd ∉ read_fd_set)); [apply IH |].
  destruct (invoke callback fd (wld s)) as [socket_valid w].
  destruct socket_valid; cbn [negb]; [apply (IH (set_wld w s)) |].
  set (s1 := rxSock LInfo "The socket fd=%d has been closed by peer" [fd] (set_wld w s)).
  destruct (remove_socket_unprotected fd s1) as [[s2 it] | what] eqn:Hrm.
  - destruct (remove_socket_unprotected_shrinks fd s1 s2 it Hrm)
      as (Hp0 & Hp1 & Hr & Ha & Ht).
    destruct it as [k |].
    + destruct (IH s2) as (s3 & Hrun & Hq0 & Hq1 & Hqr & Hqa & Hqt).
      exists s3. split; [exact Hrun |]. frame_solve.
    + exists s2. split; [reflexivity |]. repeat split; assumption.
  - exfalso.
    destruct (decide (fd < 0)) as [Hneg | Hpos].
    + rewrite remove_socket_unprotected_negative in Hrm by exact Hneg. discriminate.
    + destruct (remove_socket_unprotected_present fd s1 ltac:(lia) ltac:(by eexists))
        as (s2 & Hrun & _).
      congruence.
Qed.

(** X14. A turn of the thread registers nothing: [active_sockets] can
    only lose entries, [total_fd_set] gains at most the descriptor of the
    message read, the two ends of the pipe stay, and the thread leaves
    its loop on an [EXIT] message only. *)
Theorem thread_turn_frame (n : Z) (read_fd_set : gset Z) (nrd : Z) (msg : ctrl_cmd_t)
    (s s' : state) :
  run_thread_iteration n read_fd_set nrd msg s = Ok s' →
  active_sockets s' ⊆ active_sockets s
  ∧ total_fd_set s' ⊆ {[new_fd msg]} ∪ total_fd_set s
  ∧ pipefd0 s' = pipefd0 s ∧ pipefd1 s' = pipefd1 s
  ∧ (running s' ≠ running s → cmd msg = EXIT ∧ running s' = false).
Proof.
  unfold run_thread_iteration.
  destruct (decide (n = -1)); [intros [= <-]; cbn; frame_solve |].
  destruct (decide (n = 0)); [intros [= <-]; cbn; frame_solve |].
  destruct (handler_loop_shrinks read_fd_set (keys (active_sockets s)) s)
    as (s1 & -> & Hp0 & Hp1 & Hr & Ha & Ht).
  destruct (decide (pipefd0 s1 ∈ read_fd_set)); [| intros [= <-]; frame_solve].
  unfold handle_ctrl.
  destruct (decide (nrd ≤ 0)); [intros [= <-]; cbn; frame_solve |].
  destruct msg as [c fd]. cbn [cmd new_fd].
  destruct c.
  - intros [= <-]. cbn. frame_solve.
  - destruct (decide (0 ≤ fd)); intros [= <-]; cbn; [| frame_solve].
    repeat split; try assumption; try congruence.
    apply union_mono_l. exact Ht.
  - destruct (remove_socket_unprotected fd s1) as [[s2 it] | what] eqn:Hrm; [| discriminate].
    intros [= <-]. cbn.
    destruct (remove_socket_unprotected_shrinks fd s1 s2 it Hrm)
      as (Hq0 & Hq1 & Hqr & Hqa & Hqt).
    frame_solve.
  - intros [= <-]. cbn. frame_solve.
Qed.

Lemma thread_turn_frame_witness :
  active_sockets (set_running false (run_thread_init 3 4 {[5 := recvfrom_pdu_task 0]} idle))
  ⊆ active_sockets (run_thread_init 3 4 {[5 := recvfrom_pdu_task 0]} idle).
Proof.
  apply (thread_turn_frame 1 {[3]} 8 (CtrlCmd EXIT (-1))
           (run_thread_init 3 4 {[5 := recvfrom_pdu_task 0]} idle)
           (set_running false (run_thread_init 3 4 {[5 := recvfrom_pdu_task 0]} idle))).
  vm_compute. reflexivity.
Defined.

End TurnFrame.

(** ** Registration, seen by the caller and by the thread *)

Section RegistrationLife.
Import rx_tasks rx_multisocket_handler rx_lifecycle.

(** X15. A registration whose [write] to the pipe fails answers [false]
    but leaves its entry in [active_sockets] while the thread has not been
    told: the descriptor is not watched, a second registration of it is
    refused as a duplicate whatever its [write] would answer, and
    [remove_socket] still finds the entry. *)
Theorem failed_write_leaves_entry (wr wr' fd : Z) (h h' : recv_task) (s : state) :
  0 ≤ fd →
  active_sockets s !! fd = None →
  wr ≠ sizeof_ctrl_cmd_t →
  ∃ s1,
    add_socket_handler wr fd h s = (false, s1, Some (CtrlCmd NEW_FD fd))
    ∧ active_sockets s1 = <[fd := h]> (active_sockets s)
    ∧ total_fd_set s1 = total_fd_set s
    ∧ (∃ s2, add_socket_handler wr' fd h' s1 = (false, s2, None)
             ∧ last_error s2 = Some DUPLICATE_FD
             ∧ active_sockets s2 = active_sockets s1)
    ∧ remove_socket sizeof_ctrl_cmd_t fd s1 = (true, s1, Some (CtrlCmd RM_FD fd)).
Proof.
  intros Hfd Habs Hwr.
  unfold add_socket_handler at 1.
  destruct (decide (fd < 0)) as [Hneg | _]; [lia |].
  destruct (decide (is_Some (active_sockets s !! fd))) as [[x Hx] | _]; [congruence |].
  destruct (decide (wr ≠ sizeof_ctrl_cmd_t)) as [_ | Hn]; [| contradiction].
  eexists. split; [reflexivity |]. cbn.
  split; [reflexivity |]. split; [reflexivity |].
  split.
  - unfold add_socket_handler. cbn.
    destruct (decide (fd < 0)) as [Hneg | _]; [lia |].
    rewrite lookup_insert_eq.
    destruct (decide (is_Some (Some h))) as [_ | Hn]; [| exfalso; apply Hn; by eexists].
    eexists. split; [reflexivity |].
    unfold last_error. cbn. rewrite last_snoc. split; reflexivity.
  - unfold remove_socket, map_find. cbn. rewrite lookup_insert_eq.
    destruct (decide (sizeof_ctrl_cmd_t ≠ sizeof_ctrl_cmd_t)) as [Hn | _];
      [contradiction | reflexivity].
Qed.

Lemma failed_write_leaves_entry_witness :
  ∃ s1,
    add_socket_handler (-1) 5 (recvfrom_pdu_task 0) (run_thread_init 3 4 ∅ idle)
    = (false, s1, Some (CtrlCmd NEW_FD 5))
    ∧ active_sockets s1
      = <[5 := recvfrom_pdu_task 0]> (active_sockets (run_thread_init 3 4 ∅ idle))
    ∧ total_fd_set s1 = total_fd_set (run_thread_init 3 4 ∅ idle)
    ∧ (∃ s2, add_socket_handler 8 5 (recvfrom_pdu_task 1) s1 = (false, s2, None)
             ∧ last_error s2 = Some DUPLICATE_FD
             ∧ active_sockets s2 = active_sockets s1)
    ∧ remove_socket sizeof_ctrl_cmd_t 5 s1 = (true, s1, Some (CtrlCmd RM_FD 5)).
Proof.
  apply (failed_write_leaves_entry (-1) 8 5 (recvfrom_pdu_task 0) (recvfrom_pdu_task 1)
           (run_thread_init 3 4 ∅ idle)).
  - lia.
  - reflexivity.
  - unfold sizeof_ctrl_cmd_t. lia.
Defined.

(** *** Turns on the pipe alone *)

Lemma handler_loop_nothing_ready (read_fd_set : gset Z) (its : list Z) (s : state) :
  (∀ fd, fd ∈ read_fd_set → active_sockets s !! fd = None) →
  handler_loop read_fd_set its s = Ok s.
Proof.
  intros Hnone. induction its as [| fd its IH]; [reflexivity |].
  cbn [handler_loop].
  destruct (active_sockets s !! fd) eqn:Hcb; [| exact IH].
  destruct (decide (fd ∉ read_fd_set)) as [_ | Hin]; [exact IH |].
  exfalso. apply dec_stable in Hin. specialize (Hnone fd Hin). congruence.
Qed.

Lemma select_answer_quiet (y : system) :
  pipe y ≠ [] →
  pipefd0 (st y) ∈ total_fd_set (st y) →
  select_answer ∅ y = {[pipefd0 (st y)]}.
Proof.
  intros Hp Hin. unfold select_answer.
  destruct (decide (pipe y = [])) as [He | _]; [contradiction |].
  apply set_eq. intros x.
  rewrite elem_of_union, elem_of_difference, elem_of_filter, elem_of_intersection,
    !elem_of_singleton.
  split.
  - intros [[[Hx _] _] | [Hx _]]; [by apply not_elem_of_empty in Hx | exact Hx].
  - intros ->. right. split; [reflexivity | exact Hin].
Qed.

Lemma handle_ctrl_pipefd0 (nrd : Z) (msg : ctrl_cmd_t) (s s' : state) :
  handle_ctrl nrd msg s = Ok s' → pipefd0 s' = pipefd0 s.
Proof.
  unfold handle_ctrl.
  destruct (decide (nrd ≤ 0)); [intros [= <-]; reflexivity |].
  destruct (cmd msg).
  - intros [= <-]. reflexivity.
  - destruct (decide _); intros [= <-]; reflexivity.
  - destruct (remove_socket_unprotected (new_fd msg) s) as [[s2 it] | what] eqn:Hrm;
      [| discriminate].
    intros [= <-]. cbn.
    unfold remove_socket_unprotected in Hrm.
    destruct (decide _) in Hrm; [injection Hrm as <- _; reflexivity |].
    destruct (map_erase _ _) as [[m it'] |] in Hrm; [| discriminate].
    injection Hrm as <- _. reflexivity.
  - intros [= <-]. reflexivity.
Qed.

(** With no descriptor ready and a record in the pipe, a turn is the
    handling of that record. *)
Lemma quiet_turn (y : system) (msg : ctrl_cmd_t) (rest : list ctrl_cmd_t) :
  pipe y = msg :: rest →
  pipefd0 (st y) ∈ total_fd_set (st y) →
  active_sockets (st y) !! pipefd0 (st y) = None →
  step (do_turn ∅) y
  = match handle_ctrl sizeof_ctrl_cmd_t msg (st y) with
    | Ok s => Ok (System s rest)
    | Undefined what => Undefined what
    end.
Proof.
  intros Hp Hin Hkey. unfold step.
  rewrite select_answer_quiet by (rewrite ?Hp; done).
  destruct (decide ({[pipefd0 (st y)]} = (∅ : gset Z))) as [He | _].
  { exfalso. assert (H : pipefd0 (st y) ∈ (∅ : gset Z)) by (rewrite <- He; set_solver).
    by apply not_elem_of_empty in H. }
  rewrite Hp, size_singleton. unfold run_thread_iteration.
  destruct (decide (Z.of_nat 1 = -1)) as [Hn | _]; [discriminate |].
  destruct (decide (Z.of_nat 1 = 0)) as [Hn | _]; [discriminate |].
  rewrite handler_loop_nothing_ready.
  2: { intros fd Hfd. apply elem_of_singleton in Hfd. by subst fd. }
  destruct (decide (pipefd0 (st y) ∈ ({[pipefd0 (st y)]} : gset Z))) as [_ | Hn];
    [| exfalso; apply Hn; by apply elem_of_singleton].
  destruct (handle_ctrl sizeof_ctrl_cmd_t msg (st y)) as [s' | what] eqn:Hh; [| reflexivity].
  rewrite (handle_ctrl_pipefd0 _ _ _ _ Hh).
  destruct (decide _) as [_ | Hn]; [reflexivity |].
  exfalso. apply Hn. by apply elem_of_singleton.
Qed.

End RegistrationLife.

Section RegisterAndRemove.
Import rx_tasks rx_multisocket_handler rx_lifecycle.

Lemma step_add_ok (y : system) (fd : Z) (h : recv_task) :
  0 ≤ fd →
  active_sockets (st y) !! fd = None →
  step (do_add fd h) y
  = Ok (System (rxSock LDebug "socket fd=%d has been registered." [fd]
                       (set_active_sockets (<[fd := h]> (active_sockets (st y))) (st y)))
               (pipe y ++ [CtrlCmd NEW_FD fd])).
Proof.
  intros Hfd Habs. unfold step, add_socket_handler.
  destruct (decide (fd < 0)) as [Hneg | _]; [lia |].
  destruct (decide (is_Some (active_sockets (st y) !! fd))) as [[x Hx] | _]; [congruence |].
  destruct (decide (sizeof_ctrl_cmd_t ≠ sizeof_ctrl_cmd_t)) as [Hn | _]; [contradiction |].
  reflexivity.
Qed.

Lemma step_remove_ok (y : system) (fd : Z) :
  is_Some (active_sockets (st y) !! fd) →
  step (do_remove fd) y = Ok (System (st y) (pipe y ++ [CtrlCmd RM_FD fd])).
Proof.
  intros [x Hx]. unfold step, remove_socket, map_find. rewrite Hx.
  destruct (decide (sizeof_ctrl_cmd_t ≠ sizeof_ctrl_cmd_t)) as [Hn | _]; [contradiction |].
  destruct y. reflexivity.
Qed.





End RegisterAndRemove.

(** ** Stopping the thread *)

Section Stop.
Import rx_tasks rx_multisocket_handler rx_lifecycle.

Lemma select_answer_empty_pipe (y : system) : pipe y = [] → select_answer ∅ y = ∅.
Proof.
  intros Hp. unfold select_answer. rewrite Hp.
  destruct (decide ([] = [])) as [_ | Hn]; [| contradiction].
  apply set_eq. intros x.
  rewrite elem_of_union, elem_of_difference, elem_of_filter.
  split; [| intros Hx; by apply not_elem_of_empty in Hx].
  intros [[[Hx _] _] | Hx]; exact Hx.
Qed.

(** Handling a [NEW_FD] record keeps the thread going and the
    registrations in place. *)
Lemma handle_new_fd_keeps (fd : Z) (s : state) :
  ∃ s', handle_ctrl sizeof_ctrl_cmd_t (CtrlCmd NEW_FD fd) s = Ok s'
        ∧ running s' = running s ∧ active_sockets s' = active_sockets s
        ∧ pipefd0 s' = pipefd0 s ∧ pipefd1 s' = pipefd1 s
        ∧ total_fd_set s ⊆ total_fd_set s'.
Proof.
  unfold handle_ctrl.
  destruct (decide (sizeof_ctrl_cmd_t ≤ 0)) as [Hn | _]; [unfold sizeof_ctrl_cmd_t in Hn; lia |].
  cbn [cmd new_fd].
  destruct (decide (0 ≤ fd)); (eexists; split; [reflexivity |]; cbn; repeat split;
    try reflexivity).
  apply union_subseteq_r.
Qed.

(** The thread works off the registrations in the pipe and leaves on the
    [EXIT] behind them. *)
Lemma wait_thread_finish_drains (msgs : list ctrl_cmd_t) (x : Z) :
  Forall (λ m, cmd m = NEW_FD) msgs →
  ∀ (s : state) (fuel : nat),
    running s = true →
    pipefd0 s ∈ total_fd_set s →
    active_sockets s !! pipefd0 s = None →
    (length msgs < fuel)%nat →
    ∃ s', wait_thread_finish fuel (System s (msgs ++ [CtrlCmd EXIT x]))
          = Ok (Some (System s' []))
          ∧ running s' = false ∧ active_sockets s' = active_sockets s
          ∧ pipefd0 s' = pipefd0 s ∧ pipefd1 s' = pipefd1 s.
Proof.
  induction 1 as [| m msgs Hm Hall IH]; intros s fuel Hrun Hin Hkey Hfuel.
  - destruct fuel as [| fuel]; [cbn in Hfuel; lia |].
    cbn [wait_thread_finish st app]. rewrite Hrun. cbn [negb].
    rewrite select_answer_quiet by (cbn; done).
    destruct (decide _) as [He | _].
    { exfalso. assert (H : pipefd0 s ∈ (∅ : gset Z))
        by (cbn in He; rewrite <- He; by apply elem_of_singleton).
      by apply not_elem_of_empty in H. }
    erewrite quiet_turn; [| reflexivity | exact Hin | exact Hkey].
    unfold handle_ctrl.
    destruct (decide (sizeof_ctrl_cmd_t ≤ 0)) as [Hn | _];
      [unfold sizeof_ctrl_cmd_t in Hn; lia |].
    cbn [cmd st].
    exists (set_running false s). split.
    + destruct fuel; reflexivity.
    + repeat split; reflexivity.
  - destruct fuel as [| fuel]; [cbn in Hfuel; lia |].
    cbn [wait_thread_finish st app]. rewrite Hrun. cbn [negb].
    rewrite select_answer_quiet by (cbn; done).
    destruct (decide _) as [He | _].
    { exfalso. assert (H : pipefd0 s ∈ (∅ : gset Z))
        by (cbn in He; rewrite <- He; by apply elem_of_singleton).
      by apply not_elem_of_empty in H. }
    erewrite quiet_turn; [| reflexivity | exact Hin | exact Hkey].
    destruct m as [c fd]. cbn in Hm. subst c. cbn [st].
    destruct (handle_new_fd_keeps fd s) as (s1 & -> & Hr & Ha & Hp0 & Hp1 & Ht).
    destruct (IH s1 fuel) as (s' & Hw & Hr' & Ha' & Hq0 & Hq1).
    + congruence.
    + rewrite Hp0. apply Ht, Hin.
    + rewrite Ha, Hp0. exact Hkey.
    + cbn in Hfuel. lia.
    + exists s'. split; [exact Hw |]. repeat split; congruence.
Qed.

(** Without an [EXIT] in the pipe the thread works off the registrations
    and then sits in [select]. *)
Lemma wait_thread_finish_blocks (msgs : list ctrl_cmd_t) :
  Forall (λ m, cmd m = NEW_FD) msgs →
  ∀ (s : state) (fuel : nat),
    running s = true →
    pipefd0 s ∈ total_fd_set s →
    active_sockets s !! pipefd0 s = None →
    wait_thread_finish fuel (System s msgs) = Ok None.
Proof.
  induction 1 as [| m msgs Hm Hall IH]; intros s fuel Hrun Hin Hkey.
  - destruct fuel as [| fuel]; cbn [wait_thread_finish st]; rewrite Hrun; cbn [negb];
      [reflexivity |].
    rewrite select_answer_empty_pipe by reflexivity.
    destruct (decide _) as [_ | Hn]; [reflexivity | contradiction].
  - destruct fuel as [| fuel]; cbn [wait_thread_finish st]; rewrite Hrun; cbn [negb];
      [reflexivity |].
    destruct (decide _) as [_ | _]; [reflexivity |].
    erewrite quiet_turn; [| reflexivity | exact Hin | exact Hkey].
    destruct m as [c fd]. cbn in Hm. subst c. cbn [st].
    destruct (handle_new_fd_keeps fd s) as (s1 & -> & Hr & Ha & Hp0 & Hp1 & Ht).
    apply IH.
    + congruence.
    + rewrite Hp0. apply Ht, Hin.
    + rewrite Ha, Hp0. exact Hkey.
Qed.





End Stop.

(** ** Dispatch *)

Section Dispatch.
Import rx_tasks rx_multisocket_handler rx_lifecycle.

(** X20. A task of this file that gets no buffer from the pool does not
    read: the pending message stays in the receive queue, no callback is
    invoked, and the answer is [true]. *)
Theorem task_without_buffer_reads_nothing (t : recv_task) (fd : Z) (w : world) :
  is_builtin t →
  pool w = [] ∨ (∃ p, pool w = None :: p) →
  fst (invoke t fd w) = true
  ∧ rx (snd (invoke t fd w)) = rx w
  ∧ delivered (snd (invoke t fd w)) = delivered w
  ∧ task_log (snd (invoke t fd w))
    = task_log w ++ [Log LError "Unable to allocate byte buffer" []].
Proof.
  intros Hb Hpool.
  destruct t as [func | func | run]; [| | contradiction]; cbn [invoke];
    unfold recvfrom_pdu_task_call, sctp_recvmsg_pdu_task_call, make_byte_buffer;
    destruct Hpool as [-> | [p ->]]; repeat split; reflexivity.
Qed.

Lemma task_without_buffer_reads_nothing_witness :
  rx (snd (invoke (recvfrom_pdu_task 0) 5
             (World [] {[5 := [RxAnswer 1 0 [7] sockaddr_in_zero sctp_sndrcvinfo_zero 0]]}
                    [] [])))
  = {[5 := [RxAnswer 1 0 [7] sockaddr_in_zero sctp_sndrcvinfo_zero 0]]}.
Proof.
  exact (proj1 (proj2 (task_without_buffer_reads_nothing (recvfrom_pdu_task 0) 5
           (World [] {[5 := [RxAnswer 1 0 [7] sockaddr_in_zero sctp_sndrcvinfo_zero 0]]}
                  [] [])
           I (or_introl eq_refl)))).
Defined.

(** The world after the tasks of the descriptors [fds], in this order. *)
Lemma handler_loop_fold (read_fd_set : gset Z) (its : list Z) (s : state) :
  map_Forall (λ _ t, is_builtin t) (active_sockets s) →
  handler_loop read_fd_set its s
  = Ok (set_wld
          (foldl (λ w fd, match active_sockets s !! fd with
                          | Some t => snd (invoke t fd w)
                          | None => w
                          end)
                 (wld s) (filter (λ fd, fd ∈ read_fd_set) its))
          s).
Proof.
  intros Hall. revert s Hall.
  induction its as [| fd its IH]; intros s Hall.
  { destruct s. reflexivity. }
  cbn [handler_loop].
  destruct (decide (fd ∈ read_fd_set)) as [Hin | Hout].
  - rewrite filter_cons_True by exact Hin. cbn [foldl].
    destruct (active_sockets s !! fd) as [callback |] eqn:Hcb; [| apply IH, Hall].
    destruct (decide (fd ∉ read_fd_set)) as [Hn | _]; [contradiction |].
    destruct (builtin_invoke callback fd (wld s) (Hall fd callback Hcb)) as [Hv _].
    destruct (invoke callback fd (wld s)) as [valid w1]. cbn in Hv. subst valid.
    cbn [negb snd].
    rewrite (IH (set_wld w1 s) Hall). reflexivity.
  - rewrite filter_cons_False by exact Hout.
    destruct (active_sockets s !! fd) as [callback |]; [| apply IH, Hall].
    destruct (decide (fd ∉ read_fd_set)) as [_ | Hn]; [apply IH, Hall | contradiction].
Qed.



End Dispatch.

(** ** Registered descriptors are never negative *)

Section KeysNonNegative.
Import rx_tasks rx_multisocket_handler rx_lifecycle.

Lemma run_thread_iteration_active (n : Z) (read_fd_set : gset Z) (nrd : Z) (msg : ctrl_cmd_t)
    (s s' : state) :
  run_thread_iteration n read_fd_set nrd msg s = Ok s' →
  active_sockets s' ⊆ active_sockets s ∧ pipefd0 s' = pipefd0 s.
Proof.
  unfold run_thread_iteration.
  destruct (decide (n = -1)); [intros [= <-]; split; reflexivity |].
  destruct (decide (n = 0)); [intros [= <-]; split; reflexivity |].
  destruct (handler_loop_shrinks read_fd_set (keys (active_sockets s)) s)
    as (s1 & -> & Hp0 & _ & _ & Ha & _).
  destruct (decide (pipefd0 s1 ∈ read_fd_set)); [| intros [= <-]; split; assumption].
  intros Hh. rewrite (handle_ctrl_pipefd0 _ _ _ _ Hh). split; [| exact Hp0].
  revert Hh. unfold handle_ctrl.
  destruct (decide (nrd ≤ 0)); [intros [= <-]; exact Ha |].
  destruct (cmd msg).
  - intros [= <-]. exact Ha.
  - destruct (decide _); intros [= <-]; exact Ha.
  - destruct (remove_socket_unprotected (new_fd msg) s1) as [[s2 it] | what] eqn:Hrm;
      [| discriminate].
    intros [= <-]. cbn.
    destruct (remove_socket_unprotected_shrinks _ _ _ _ Hrm) as (_ & _ & _ & Hq & _).
    etrans; eassumption.
  - intros [= <-]. exact Ha.
Qed.

Lemma step_keys_nonneg (a : action) (y y' : system) :
  step a y = Ok y' →
  map_Forall (λ k _, 0 ≤ k) (active_sockets (st y)) →
  map_Forall (λ k _, 0 ≤ k) (active_sockets (st y')).
Proof.
  intros Hstep Hall.
  assert (Hsub : ∀ s', active_sockets s' ⊆ active_sockets (st y) →
                       map_Forall (λ k _, 0 ≤ k) (active_sockets s')).
  { intros s' Hs k v Hk. apply (Hall k v). eapply lookup_weaken; eassumption. }
  destruct a as [fd h | fd | ready]; cbn [step] in Hstep.
  - pose proof (add_socket_handler_keys_nonneg sizeof_ctrl_cmd_t fd h (st y) Hall) as Hadd.
    destruct (add_socket_handler sizeof_ctrl_cmd_t fd h (st y)) as [[b s1] m].
    injection Hstep as <-. exact Hadd.
  - unfold remove_socket in Hstep.
    destruct (map_find _ _); [destruct (decide _) |]; injection Hstep as <-; exact Hall.
  - destruct (decide _); [injection Hstep as <-; exact Hall |].
    destruct (pipe y) as [| msg rest].
    + destruct (run_thread_iteration _ _ _ _ _) as [s1 |] eqn:Hrun; [| discriminate].
      injection Hstep as <-. apply Hsub.
      apply (run_thread_iteration_active _ _ _ _ _ _ Hrun).
    + destruct (run_thread_iteration _ _ _ _ _) as [s1 |] eqn:Hrun; [| discriminate].
      injection Hstep as <-. apply Hsub.
      apply (run_thread_iteration_active _ _ _ _ _ _ Hrun).
Qed.

(** X22. Whatever callers and thread do, in whatever order, every key
    of [active_sockets] stays a descriptor that is not negative:
    registration refuses the others and the thread registers nothing. *)
Theorem run_keys_nonneg (l : list action) (y y' : system) :
  run l y = Ok y' →
  map_Forall (λ k _, 0 ≤ k) (active_sockets (st y)) →
  map_Forall (λ k _, 0 ≤ k) (active_sockets (st y')).
Proof.
  revert y. induction l as [| a l IH]; intros y Hrun Hall.
  - injection Hrun as <-. exact Hall.
  - cbn [run] in Hrun.
    destruct (step a y) as [y1 | what] eqn:Hstep; [| discriminate].
    apply (IH y1 Hrun). exact (step_keys_nonneg a y y1 Hstep Hall).
Qed.

Lemma run_keys_nonneg_witness :
  ∃ y', run [do_add (-2) (recvfrom_pdu_task 0); do_add 5 (recvfrom_pdu_task 0); do_turn ∅]
            (start 3 4 idle) = Ok y'
        ∧ map_Forall (λ k _, 0 ≤ k) (active_sockets (st y')).
Proof.
  eexists. split; [vm_compute; reflexivity |].
  apply (run_keys_nonneg
           [do_add (-2) (recvfrom_pdu_task 0); do_add 5 (recvfrom_pdu_task 0); do_turn ∅]
           (start 3 4 idle)).
  - vm_compute. reflexivity.
  - apply map_Forall_empty.
Defined.

End KeysNonNegative.
